(** * incus-guestapi: the event model, its JSON decoding and the guest client

    A shallow embedding of the two Go packages of the repository:

    - package [incus] (the API return types and [Event.UnmarshalJSON]);
    - package [guest] (the one-shot calls of [GuestClient] and the
      [ListenForEvents] subscription loop).

    The standard library packages the code calls are modelled at their
    interface: [encoding/json] works on an already scanned JSON value,
    [net/url]'s parser and printer and the HTTP and WebSocket transports
    are variables of a section. *)

From Stdlib Require Import ZArith NArith Ascii String DecimalString.
From stdpp Require Import base tactics option list strings gmap.

Local Open Scope string_scope.

(** ** Go errors *)

(** The error values the two packages create or pass on. [wrapError] is
    what [fmt.Errorf] builds for a format with one [%w]: the formatted
    message and the wrapped error.  Of [*json.UnmarshalTypeError] only the
    JSON kind and the Go type are kept. *)
Inductive error : Type :=
  | errorString (s : string)
  | SyntaxError (msg : string)
  | UnmarshalTypeError (Value : string) (GoType : string)
  | wrapError (msg : string) (err : error).

#[global] Instance error_eq_dec : EqDecision error.
Proof. solve_decision. Defined.

Module errors.

Definition New (text : string) : error := errorString text.

(** [err.Error()]. For an [UnmarshalTypeError] this is the message of an
    error without struct context; Go names the struct and the field in the
    message of a type error raised inside a struct ([into Go struct field
    S.f of type T]), which is not kept here. *)
Definition Error (e : error) : string :=
  match e with
  | errorString s => s
  | SyntaxError msg => msg
  | UnmarshalTypeError v t =>
      "json: cannot unmarshal " ++ v ++ " into Go value of type " ++ t
  | wrapError msg _ => msg
  end.

Definition Unwrap (e : error) : option error :=
  match e with
  | wrapError _ err => Some err
  | _ => None
  end.

(** [errors.Is] on these comparable error values. *)
Fixpoint Is (err target : error) : bool :=
  bool_decide (err = target)
  || match err with
     | wrapError _ inner => Is inner target
     | _ => false
     end.

End errors.

Module fmt.

(** [%d] of a Go int *)
Definition itoa (n : Z) : string := NilZero.string_of_int (Z.to_int n).

(** [fmt.Errorf(prefix + "%w", err)] *)
Definition Errorf_w (prefix : string) (err : error) : error :=
  wrapError (prefix ++ errors.Error err) err.

(** [fmt.Errorf("%w: %d", err, n)] *)
Definition Errorf_w_d (err : error) (n : Z) : error :=
  wrapError (errors.Error err ++ ": " ++ itoa n) err.

(** [fmt.Errorf(prefix + "%s: %w", s, err)] *)
Definition Errorf_s_w (prefix s : string) (err : error) : error :=
  wrapError (prefix ++ s ++ ": " ++ errors.Error err) err.

(** [fmt.Sprintf(prefix + "%s" + suffix, s)] *)
Definition Sprintf_s (prefix s suffix : string) : string := prefix ++ s ++ suffix.

End fmt.

(** ** encoding/json, on scanned values *)

Module json.

(** A JSON text that passed the scanner. Object members keep their order
    and their duplicates; member names and strings are the unquoted Go
    strings. *)
#[warnings="-register-all"] Inductive value : Type :=
  | JNull
  | JBool (b : bool)
  | JNumber (literal : string)
  | JString (s : string)
  | JArray (items : list value)
  | JObject (members : list (string * value)).

(** A byte slice as [json.Unmarshal] sees it after [checkValid]. *)
Inductive data : Type :=
  | Malformed (err : error)
  | Wellformed (v : value).

(** The [Value] field of [UnmarshalTypeError]. *)
Definition kind (v : value) : string :=
  match v with
  | JNull => "null"
  | JBool _ => "bool"
  | JNumber _ => "number"
  | JString _ => "string"
  | JArray _ => "array"
  | JObject _ => "object"
  end.

(** [json.Unmarshal(nil, ...)]: the empty input does not scan. *)
Definition unexpectedEnd : error := SyntaxError "unexpected end of JSON input".

(** [json.Unmarshal(data, &target)] for a target whose decoding of a
    scanned value is [store]. The target is updated in place, also when an
    error is returned. *)
Definition Unmarshal {T : Type} (store : value -> T -> T * option error)
    (d : data) (target : T) : T * option error :=
  match d with
  | Malformed err => (target, Some err)
  | Wellformed v => store v target
  end.

(** Decoding into a Go [string] (any named string type as well): a JSON
    string is stored, [null] leaves the target alone and is no error, every
    other kind is an [UnmarshalTypeError]. *)
Definition storeString (gotype : string) (v : value) (target : string)
    : string * option error :=
  match v with
  | JString s => (s, None)
  | JNull => (target, None)
  | other => (target, Some (UnmarshalTypeError (kind other) gotype))
  end.

(** The kinds a Go string accepts without an error. *)
Definition stringOrNull (v : value) : bool :=
  match v with
  | JString _ | JNull => true
  | _ => false
  end.

(** Decoding into a [map[string]json.RawMessage]: every member's raw value
    is stored under its name, a later duplicate replacing an earlier one;
    [null] sets the map to nil. *)
Definition insertMembers (members : list (string * value))
    (target : gmap string value) : gmap string value :=
  foldl (fun m kv => <[kv.1 := kv.2]> m) target members.

Definition storeRawMap (v : value) (target : gmap string value)
    : gmap string value * option error :=
  match v with
  | JObject members => (insertMembers members target, None)
  | JNull => (∅, None)
  | other =>
      (target, Some (UnmarshalTypeError (kind other) "map[string]json.RawMessage"))
  end.

(** [m[key]] on a [map[string]json.RawMessage]: a missing key gives the nil
    slice, which is not a JSON text. *)
Definition index (m : gmap string value) (key : string) : data :=
  match m !! key with
  | Some raw => Wellformed raw
  | None => Malformed unexpectedEnd
  end.

(** *** Struct fields *)

Definition isLower (c : ascii) : bool :=
  (97 <=? N_of_ascii c)%N && (N_of_ascii c <=? 122)%N.

Definition toUpper (c : ascii) : ascii := ascii_of_N (N_of_ascii c - 32).

(** [foldName], as far as it can decide a match with an ASCII field name:
    ASCII letters fold to upper case, and the two other runes that fold to
    an ASCII letter, U+212A (Kelvin sign, bytes E2 84 AA) and U+017F (long
    s, bytes C5 BF), fold to [K] and [S]. The fold of any other rune is not
    ASCII; its bytes are kept. *)
Fixpoint foldName (s : string) : string :=
  match s with
  | EmptyString => EmptyString
  | String c rest =>
      if isLower c then String (toUpper c) (foldName rest)
      else
        match rest with
        | String c1 rest1 =>
            if (N_of_ascii c =? 197)%N && (N_of_ascii c1 =? 191)%N
            then String "S" (foldName rest1)
            else
              match rest1 with
              | String c2 rest2 =>
                  if (N_of_ascii c =? 226)%N && (N_of_ascii c1 =? 132)%N
                     && (N_of_ascii c2 =? 170)%N
                  then String "K" (foldName rest2)
                  else String c (foldName rest)
              | EmptyString => String c (foldName rest)
              end
        | EmptyString => String c EmptyString
        end
  end.

(** A struct field: its JSON name and how a value is stored into it. *)
Record field (S : Type) : Type := mkField {
  name : string;
  store : value -> S -> S * option error;
}.
Arguments mkField {S} _ _.
Arguments name {S} _.
Arguments store {S} _.

(** The field a member name selects: an exact match first, else a match
    under [foldName]. *)
Definition findField {S : Type} (fields : list (field S)) (key : string)
    : option (field S) :=
  match List.find (fun f => String.eqb (name f) key) fields with
  | Some f => Some f
  | None =>
      List.find (fun f => String.eqb (foldName (name f)) (foldName key)) fields
  end.

(** [d.saveError]: only the first error is kept. *)
Definition saveError (saved err : option error) : option error :=
  match saved with
  | Some _ => saved
  | None => err
  end.

(** Decoding an object into a struct: members are taken in order, unknown
    names are skipped, a type error in a member is saved and decoding goes
    on. *)
Definition object {S : Type} (fields : list (field S))
    (members : list (string * value)) (target : S) : S * option error :=
  foldl
    (fun (acc : S * option error) (kv : string * value) =>
       match findField fields kv.1 with
       | None => acc
       | Some f =>
           let '(t, err) := store f kv.2 acc.1 in
           (t, saveError acc.2 err)
       end)
    (target, None) members.

(** Decoding into a struct value. *)
Definition storeStruct {S : Type} (gotype : string) (fields : list (field S))
    (v : value) (target : S) : S * option error :=
  match v with
  | JObject members => object fields members target
  | JNull => (target, None)
  | other => (target, Some (UnmarshalTypeError (kind other) gotype))
  end.

End json.

(** ** Package incus: the API return types *)

Module incus.

Definition EventType : Type := string.

Definition EventTypeConfig : EventType := "config".
Definition EventTypeDevice : EventType := "device".

Definition Valid (et : EventType) : bool :=
  if negb (String.eqb et EventTypeConfig) && negb (String.eqb et EventTypeDevice)
  then false
  else true.

Record ConfigUpdateMetadata : Type := mkConfigUpdateMetadata {
  Key : string;
  OldValue : string;
  Value : string;
}.

Record DeviceConfig : Type := mkDeviceConfig {
  DeviceConfig_Type : string;
  DeviceConfig_Path : string;
}.

Record DeviceUpdateMetadata : Type := mkDeviceUpdateMetadata {
  Name : string;
  Action : string;
  DeviceUpdate_Config : DeviceConfig;
}.

Record Event : Type := mkEvent {
  Timestamp : string;
  Type_ : EventType;
  Config : ConfigUpdateMetadata;
  Device : DeviceUpdateMetadata;
}.

(** The zero values of the structs. *)
Definition zeroConfigUpdateMetadata : ConfigUpdateMetadata :=
  mkConfigUpdateMetadata "" "" "".
Definition zeroDeviceConfig : DeviceConfig := mkDeviceConfig "" "".
Definition zeroDeviceUpdateMetadata : DeviceUpdateMetadata :=
  mkDeviceUpdateMetadata "" "" zeroDeviceConfig.
Definition zeroEvent : Event :=
  mkEvent "" "" zeroConfigUpdateMetadata zeroDeviceUpdateMetadata.

(** A string field of a struct, from its getter and setter. *)
Definition stringField {S : Type} (jsonName : string) (get : S -> string)
    (set : string -> S -> S) : json.field S :=
  json.mkField jsonName
    (fun v s => let '(x, err) := json.storeString "string" v (get s) in (set x s, err)).

(** The fields the [json] tags of the structs declare. *)
Definition ConfigUpdateMetadata_fields : list (json.field ConfigUpdateMetadata) :=
  [ stringField "key" Key (fun x s => mkConfigUpdateMetadata x (OldValue s) (Value s));
    stringField "old_value" OldValue (fun x s => mkConfigUpdateMetadata (Key s) x (Value s));
    stringField "value" Value (fun x s => mkConfigUpdateMetadata (Key s) (OldValue s) x) ].

Definition DeviceConfig_fields : list (json.field DeviceConfig) :=
  [ stringField "type" DeviceConfig_Type (fun x s => mkDeviceConfig x (DeviceConfig_Path s));
    stringField "path" DeviceConfig_Path (fun x s => mkDeviceConfig (DeviceConfig_Type s) x) ].

Definition DeviceUpdateMetadata_fields : list (json.field DeviceUpdateMetadata) :=
  [ stringField "name" Name
      (fun x s => mkDeviceUpdateMetadata x (Action s) (DeviceUpdate_Config s));
    stringField "action" Action
      (fun x s => mkDeviceUpdateMetadata (Name s) x (DeviceUpdate_Config s));
    json.mkField "config"
      (fun v s =>
         let '(c, err) :=
           json.storeStruct "incus.DeviceConfig" DeviceConfig_fields v
             (DeviceUpdate_Config s) in
         (mkDeviceUpdateMetadata (Name s) (Action s) c, err)) ].

Definition storeConfigUpdateMetadata :=
  json.storeStruct "incus.ConfigUpdateMetadata" ConfigUpdateMetadata_fields.

Definition storeDeviceUpdateMetadata :=
  json.storeStruct "incus.DeviceUpdateMetadata" DeviceUpdateMetadata_fields.

(** [func (e *Event) UnmarshalJSON(data []byte) error]: the receiver after
    the call and the error returned. *)
Definition UnmarshalJSON (e : Event) (data : json.data) : Event * option error :=
  let '(intermediary, err) := json.Unmarshal json.storeRawMap data ∅ in
  match err with
  | Some err => (e, Some err)
  | None =>
      (* Unmarshal the guaranteed fields *)
      let '(ts, err) :=
        json.Unmarshal (json.storeString "string")
          (json.index intermediary "timestamp") (Timestamp e) in
      let e := mkEvent ts (Type_ e) (Config e) (Device e) in
      match err with
      | Some err => (e, Some err)
      | None =>
          let '(ty, err) :=
            json.Unmarshal (json.storeString "incus.EventType")
              (json.index intermediary "type") (Type_ e) in
          let e := mkEvent (Timestamp e) ty (Config e) (Device e) in
          match err with
          | Some err => (e, Some err)
          | None =>
              (* Delegate unmarshalling based on event type *)
              if String.eqb (Type_ e) "config" then
                match intermediary !! "metadata" with
                | None => (e, None)
                | Some meta =>
                    let '(c, err) :=
                      json.Unmarshal storeConfigUpdateMetadata
                        (json.Wellformed meta) (Config e) in
                    (mkEvent (Timestamp e) (Type_ e) c (Device e), err)
                end
              else if String.eqb (Type_ e) "device" then
                match intermediary !! "metadata" with
                | None => (e, None)
                | Some meta =>
                    let '(d, err) :=
                      json.Unmarshal storeDeviceUpdateMetadata
                        (json.Wellformed meta) (Device e) in
                    (mkEvent (Timestamp e) (Type_ e) (Config e) d, err)
                end
              else (e, None)
          end
      end
  end.

End incus.

(** ** The standard library pieces package guest uses *)

Module strings.

Definition HasPrefix (s prefix : string) : bool := String.prefix prefix s.

Definition Join (elems : list string) (sep : string) : string :=
  String.concat sep elems.

End strings.

Module url.

(** The fields of [url.URL] that the printer reads; package guest sets
    [RawQuery] only. *)
Record URL : Type := mkURL {
  Scheme : string;
  Host : string;
  Path : string;
  RawQuery : string;
  Fragment : string;
}.

Definition setRawQuery (q : string) (u : URL) : URL :=
  mkURL (Scheme u) (Host u) (Path u) q (Fragment u).

Definition isAlnum (c : ascii) : bool :=
  let n := N_of_ascii c in
  ((97 <=? n) && (n <=? 122) || (65 <=? n) && (n <=? 90)
   || (48 <=? n) && (n <=? 57))%N.

(** [shouldEscape(c, encodeQueryComponent)]: letters, digits and the marks
    [-], [_], [.], [~] are kept, every other byte is escaped. *)
Definition shouldEscape (c : ascii) : bool :=
  if isAlnum c then false
  else if (Ascii.eqb c "-" || Ascii.eqb c "_" || Ascii.eqb c "." || Ascii.eqb c "~")%bool
  then false
  else true.

Definition upperhex (n : N) : ascii :=
  if (n <? 10)%N then ascii_of_N (48 + n) else ascii_of_N (55 + n).

(** [url.QueryEscape] *)
Fixpoint QueryEscape (s : string) : string :=
  match s with
  | EmptyString => EmptyString
  | String c rest =>
      if Ascii.eqb c " " then String "+" (QueryEscape rest)
      else if shouldEscape c then
        String "%" (String (upperhex (N.shiftr (N_of_ascii c) 4))
                      (String (upperhex (N.land (N_of_ascii c) 15))
                         (QueryEscape rest)))
      else String c (QueryEscape rest)
  end.

(** [url.Values] *)
Definition Values : Type := gmap string (list string).

Definition Add (key value : string) (v : Values) : Values :=
  <[key := (default [] (v !! key) ++ [value])%list]> v.

(** Insertion of a key into a list of keys sorted by bytes. *)
Fixpoint insertKey (k : string) (keys : list string) : list string :=
  match keys with
  | [] => [k]
  | k' :: rest =>
      if String.leb k k' then k :: keys else k' :: insertKey k rest
  end.

Definition sortedKeys (v : Values) : list string :=
  foldr insertKey [] (map_to_list v).*1.

(** [Values.Encode]: [key=value] pairs, sorted by key, joined by [&]. *)
Definition Encode (v : Values) : string :=
  strings.Join
    (mjoin
       ((fun k =>
           (fun x => QueryEscape k ++ "=" ++ QueryEscape x)
             <$> default [] (v !! k))
        <$> sortedKeys v))
    "&".

End url.

Module http.

Definition StatusOK : Z := 200.
Definition StatusNotFound : Z := 404.

(** A response: its status code and what [io.ReadAll(resp.Body)] gives. *)
Record Response : Type := mkResponse {
  StatusCode : Z;
  Body : error + string;
}.

(** The two calls of [http.Client] the package makes, from the endpoint to
    the response or the transport's error. *)
Record Client : Type := mkClient {
  Get : string -> error + Response;
  Head : string -> error + Response;
}.

(** A request the client was asked to make. *)
Record Request : Type := mkRequest {
  Method : string;
  Endpoint : string;
}.

End http.

Module context.

(** The cancellation signal as the subscription loop observes it: whether
    [ctx.Done()] is closed at the loop's n-th select, n counted from 0. *)
Definition Context : Type := nat -> bool.

End context.

Module websocket.

(** A connection, as the results of the successive [conn.Reader] calls:
    the reader's error, or a message with what a JSON decoder reads from
    it. At the end of the list the next call does not return. *)
Definition Conn : Type := list (error + json.data).

End websocket.

(** ** Package guest *)

Module guest.

Definition SocketPath : string := "/dev/incus/sock".

Definition InstanceInfoPath : string := "/1.0/1.0".
Definition ListDevicesPath : string := "/1.0/1.0/devices".
Definition ConfigPath : string := "/1.0/1.0/config".
Definition MetadataPath : string := "/1.0/1.0/meta-data".
Definition EventsPath : string := "/1.0/1.0/events".

Definition UnexpectedStatusCode : error := errors.New "unexpected status code".

(** [incus.InstanceInfo] *)
Record InstanceInfo : Type := mkInstanceInfo {
  APIVersion : string;
  Location : string;
  InstanceType : string;
  State : string;
}.

Definition InstanceInfo_fields : list (json.field InstanceInfo) :=
  [ incus.stringField "api_version" APIVersion
      (fun x s => mkInstanceInfo x (Location s) (InstanceType s) (State s));
    incus.stringField "location" Location
      (fun x s => mkInstanceInfo (APIVersion s) x (InstanceType s) (State s));
    incus.stringField "instance_type" InstanceType
      (fun x s => mkInstanceInfo (APIVersion s) (Location s) x (State s));
    incus.stringField "state" State
      (fun x s => mkInstanceInfo (APIVersion s) (Location s) (InstanceType s) x) ].

Definition storeInstanceInfo :=
  json.storeStruct "incus.InstanceInfo" InstanceInfo_fields.

(** Decoding into a [[]string] of length 0: one element per item, an item
    of the wrong kind leaves its element empty and saves the error. *)
Definition storeStringSlice (v : json.value) (target : list string)
    : list string * option error :=
  match v with
  | json.JArray items =>
      foldl
        (fun (acc : list string * option error) item =>
           let '(x, err) := json.storeString "string" item "" in
           ((acc.1 ++ [x])%list, json.saveError acc.2 err))
        ([], None) items
  | json.JNull => ([], None)
  | other => (target, Some (UnmarshalTypeError (json.kind other) "[]string"))
  end.

(** Decoding into a [map[string]string]. *)
Definition storeStringMap (v : json.value) (target : gmap string string)
    : gmap string string * option error :=
  match v with
  | json.JObject members =>
      foldl
        (fun (acc : gmap string string * option error) (kv : string * json.value) =>
           let '(x, err) := json.storeString "string" kv.2 "" in
           (<[kv.1 := x]> acc.1, json.saveError acc.2 err))
        (target, None) members
  | json.JNull => (∅, None)
  | other => (target, Some (UnmarshalTypeError (json.kind other) "map[string]string"))
  end.

(** Decoding into a [map[string]map[string]string]: every member is decoded
    into a fresh inner map. *)
Definition storeDeviceMap (v : json.value) (target : gmap string (gmap string string))
    : gmap string (gmap string string) * option error :=
  match v with
  | json.JObject members =>
      foldl
        (fun (acc : gmap string (gmap string string) * option error)
             (kv : string * json.value) =>
           let '(x, err) := storeStringMap kv.2 ∅ in
           (<[kv.1 := x]> acc.1, json.saveError acc.2 err))
        (target, None) members
  | json.JNull => (∅, None)
  | other =>
      (target, Some (UnmarshalTypeError (json.kind other) "map[string]map[string]string"))
  end.

(** What a call did: the requests it made on the socket, in order, and the
    values it returned. *)
Definition Call (A : Type) : Type := list http.Request * A.

(** What [panic] was called with: an error or a string. *)
Inductive panicValue : Type :=
  | panicError (err : error)
  | panicString (s : string).

(** How a call that may panic ends. *)
Inductive outcome (A : Type) : Type :=
  | Returns (a : A)
  | Panics (v : panicValue).
Arguments Returns {A} _.
Arguments Panics {A} _.

Record GuestClient : Type := mkGuestClient {
  c : http.Client;
}.

(** What [ListenForEvents] did: the endpoint it dialled, the events it
    started the callback on, in order, and the error it returned; [None]
    for a call still blocked in [conn.Reader]. *)
Record Listening : Type := mkListening {
  dialed : option string;
  callbacks : list incus.Event;
  returned : option (option error);
}.

Section Client.

(** [net/url]: joining, parsing and printing are not modelled. *)
Variable JoinPath : string -> list string -> error + string.
Variable Parse : string -> error + url.URL.
Variable URL_String : url.URL -> string.

(** The JSON scanner, from the bytes of a body. *)
Variable scan : string -> json.data.

(** [websocket.Dial] on the client's socket. *)
Variable Dial : context.Context -> string -> http.Client -> error + websocket.Conn.

Definition handlejson {T : Type} (store : json.value -> T -> T * option error)
    (gapi : GuestClient) (path : string) (target : T) : Call (T * option error) :=
  match JoinPath "http://" [path] with
  | inl err => ([], (target, Some (fmt.Errorf_w "unexpected error: " err)))
  | inr endpoint =>
      let requests := [http.mkRequest "GET" endpoint] in
      match http.Get (c gapi) endpoint with
      | inl err => (requests, (target, Some (fmt.Errorf_w "socket error: " err)))
      | inr resp =>
          match http.Body resp with
          | inl err => (requests, (target, Some (fmt.Errorf_w "reader error: " err)))
          | inr payload =>
              if negb (http.StatusCode resp =? http.StatusOK)%Z then
                (requests,
                 (target, Some (fmt.Errorf_w_d UnexpectedStatusCode (http.StatusCode resp))))
              else
                let '(target, err) := json.Unmarshal store (scan payload) target in
                match err with
                | Some err =>
                    (requests, (target, Some (fmt.Errorf_w "unmarshal error: " err)))
                | None => (requests, (target, None))
                end
          end
      end
  end.

(** [Info] returns information about the API and instance state. *)
Definition Info (g : GuestClient) : Call (InstanceInfo * option error) :=
  handlejson storeInstanceInfo g InstanceInfoPath (mkInstanceInfo "" "" "" "").

(** [ListConfig] returns a slice of all config keys available to the
    instance. *)
Definition ListConfig (g : GuestClient) : Call (list string * option error) :=
  let s : list string := [] in
  handlejson storeStringSlice g ConfigPath s.

(** [Devices] returns a map of devices available to the instance. *)
Definition Devices (g : GuestClient)
    : Call (gmap string (gmap string string) * option error) :=
  let m : gmap string (gmap string string) := ∅ in
  handlejson storeDeviceMap g ListDevicesPath m.

(** The key [HasConfig] asks for. *)
Definition HasConfig_formattedKey (key : string) : string :=
  if negb (strings.HasPrefix key "cloud-init.") && negb (strings.HasPrefix key "user.")
  then "user." ++ key
  else key.

(** [HasConfig] checks for the presence of the specified config key. *)
Definition HasConfig (g : GuestClient) (key : string) : Call (bool * option error) :=
  let formattedKey := HasConfig_formattedKey key in
  match JoinPath "http://" [ConfigPath; formattedKey] with
  | inl err => ([], (false, Some (fmt.Errorf_w "unexpected error: " err)))
  | inr endpoint =>
      let requests := [http.mkRequest "HEAD" endpoint] in
      match http.Head (c g) endpoint with
      | inl err => (requests, (false, Some (fmt.Errorf_w "socket error: " err)))
      | inr resp =>
          if (http.StatusCode resp =? http.StatusNotFound)%Z then
            (requests, (false, None))
          else if negb (http.StatusCode resp =? http.StatusOK)%Z then
            (requests,
             (false, Some (fmt.Errorf_w_d UnexpectedStatusCode (http.StatusCode resp))))
          else (requests, (true, None))
      end
  end.

(** The key [Config] asks for. *)
Definition Config_formattedKey (key : string) : string :=
  if negb (strings.HasPrefix key "cloud-init.") && negb (strings.HasPrefix key "user.")
  then "user." ++ key
  else key.

(** [Config] retrieves the value of the specified instance config key. *)
Definition Config (g : GuestClient) (key : string) : Call (string * option error) :=
  let formattedKey := Config_formattedKey key in
  match JoinPath "http://" [ConfigPath; formattedKey] with
  | inl err => ([], ("", Some (fmt.Errorf_w "unexpected error: " err)))
  | inr endpoint =>
      let requests := [http.mkRequest "GET" endpoint] in
      match http.Get (c g) endpoint with
      | inl err => (requests, ("", Some (fmt.Errorf_w "socket error: " err)))
      | inr resp =>
          if (http.StatusCode resp =? http.StatusNotFound)%Z then
            (requests, ("", None))
          else if negb (http.StatusCode resp =? http.StatusOK)%Z then
            (requests,
             ("", Some (fmt.Errorf_w_d UnexpectedStatusCode (http.StatusCode resp))))
          else
            match http.Body resp with
            | inl err => (requests, ("", Some (fmt.Errorf_w "reader error: " err)))
            | inr result => (requests, (result, None))
            end
      end
  end.

(** [MustConfig] calls [Config], panicking if there's any error or the
    key is empty. *)
Definition MustConfig (g : GuestClient) (key : string) : Call (outcome string) :=
  let '(requests, (result, err)) := Config g key in
  match err with
  | Some err =>
      (requests, Panics (panicError (fmt.Errorf_s_w "error loading config key " key err)))
  | None =>
      if String.eqb result "" then
        (requests, Panics (panicString (fmt.Sprintf_s "loaded key " key " is blank")))
      else (requests, Returns result)
  end.

(** [Metadata] returns the value of the [cloud-init.user-data] config
    key. *)
Definition Metadata (g : GuestClient) : Call (string * option error) :=
  let out := "" in
  match JoinPath "http://" [MetadataPath] with
  | inl err => ([], (out, Some (fmt.Errorf_w "unexpected error: " err)))
  | inr endpoint =>
      let requests := [http.mkRequest "GET" endpoint] in
      match http.Get (c g) endpoint with
      | inl err => (requests, (out, Some (fmt.Errorf_w "socket error: " err)))
      | inr resp =>
          if negb (http.StatusCode resp =? http.StatusOK)%Z then
            (requests,
             ("", Some (fmt.Errorf_w_d UnexpectedStatusCode (http.StatusCode resp))))
          else
            match http.Body resp with
            | inl err => (requests, (out, Some (fmt.Errorf_w "reader error: " err)))
            | inr result => (requests, (result, None))
            end
      end
  end.

(** [json.NewDecoder(message).Decode(ev)]: what is read from the message
    is handed to [ev.UnmarshalJSON]. *)
Definition Decode (message : json.data) (ev : incus.Event) : incus.Event * option error :=
  match message with
  | json.Malformed err => (ev, Some err)
  | json.Wellformed v => incus.UnmarshalJSON ev (json.Wellformed v)
  end.

(** The [for] loop of [ListenForEvents], at its [polls]-th select, with
    the callbacks started so far. *)
Fixpoint listen (ctx : context.Context) (polls : nat) (conn : websocket.Conn)
    (started : list incus.Event) : list incus.Event * option (option error) :=
  if ctx polls then (started, Some None)
  else
    match conn with
    | [] => (started, None)
    | inl err :: _ => (started, Some (Some (fmt.Errorf_w "error in reader: " err)))
    | inr message :: conn =>
        let '(ev, err) := Decode message incus.zeroEvent in
        match err with
        | Some err =>
            (started, Some (Some (fmt.Errorf_w "error in json unmarshaller: " err)))
        | None => listen ctx (S polls) conn (started ++ [ev])%list
        end
    end.

(** The event types [ListenForEvents] subscribes to. *)
Definition strEvents (events : list incus.EventType) : list string :=
  foldl (fun acc ev => if incus.Valid ev then (acc ++ [ev])%list else acc) [] events.

(** [ListenForEvents] opens a WebSocket connection to the guest events API,
    blocking the current goroutine. *)
Definition ListenForEvents (g : GuestClient) (ctx : context.Context)
    (events : list incus.EventType) : Listening :=
  match JoinPath "ws://" [EventsPath] with
  | inl err => mkListening None [] (Some (Some (fmt.Errorf_w "unexpected error: " err)))
  | inr endpoint =>
      (* Only subscribe to specific events *)
      let subscribed : error + string :=
        if (0 <? length events)%nat then
          match Parse endpoint with
          | inl err => inl (fmt.Errorf_w "unexpected error: " err)
          | inr parsed =>
              let val := url.Add "type" (strings.Join (strEvents events) ",") ∅ in
              let parsed := url.setRawQuery (url.Encode val) parsed in
              inr (URL_String parsed)
          end
        else inr endpoint in
      match subscribed with
      | inl err => mkListening None [] (Some (Some err))
      | inr endpoint =>
          match Dial ctx endpoint (c g) with
          | inl err => mkListening (Some endpoint) [] (Some (Some err))
          | inr conn =>
              let '(started, ret) := listen ctx 0 conn [] in
              mkListening (Some endpoint) started ret
          end
      end
  end.

End Client.

(** A message that decodes, into a fresh event, to [ev]. *)
Definition decodesTo (message : json.data) (ev : incus.Event) : Prop :=
  Decode message incus.zeroEvent = (ev, None).

End guest.

(** ** The subscription loop against its connection *)

(** How the loop ended, against the connection it read: the callbacks it
    started are the decodings of the messages of a prefix of the
    connection, and what follows the prefix explains the return. *)
Inductive listened (ctx : context.Context) (polls : nat) (conn : websocket.Conn)
    (evs : list incus.Event) (ret : option (option error)) : Prop :=
  | Listened (handled : list json.data) (unread : websocket.Conn)
      (listened_conn : conn = ((inr <$> handled) ++ unread)%list)
      (listened_events : Forall2 guest.decodesTo handled evs)
      (listened_open : forall i, (i < length handled)%nat -> ctx (polls + i)%nat = false)
      (listened_return :
         match ret with
         | Some None => ctx (polls + length handled)%nat = true
         | None => unread = [] /\ ctx (polls + length handled)%nat = false
         | Some (Some err) =>
             ctx (polls + length handled)%nat = false /\
             exists cause,
               (exists rest, unread = inl cause :: rest /\
                             err = fmt.Errorf_w "error in reader: " cause) \/
               (exists message rest,
                  unread = inr message :: rest /\
                  (guest.Decode message incus.zeroEvent).2 = Some cause /\
                  err = fmt.Errorf_w "error in json unmarshaller: " cause)
         end).

(** ** A host for the examples *)

Module sample.

(** Joining for the examples: the elements without their leading slash,
    separated by slashes, after the base. *)
Definition JoinPath (base : string) (elems : list string) : error + string :=
  inr (base ++ strings.Join
                 ((fun e => if strings.HasPrefix e "/" then String.substring 1 (String.length e - 1) e else e)
                    <$> elems) "/").

(** Parsing and printing for the examples: everything but the query is
    kept in [Path]; a query that is not empty is printed after a [?]. *)
Definition Parse (rawURL : string) : error + url.URL :=
  inr (url.mkURL "" "" rawURL "" "").

Definition URL_String (u : url.URL) : string :=
  if String.eqb (url.RawQuery u) "" then url.Path u
  else url.Path u ++ "?" ++ url.RawQuery u.

Definition scan (payload : string) : json.data :=
  if String.eqb payload "null" then json.Wellformed json.JNull
  else json.Malformed (SyntaxError "invalid character").

(** A socket that answers every request with [resp] and every dial with
    [conn]. *)
Definition client (resp : http.Response) : guest.GuestClient :=
  guest.mkGuestClient (http.mkClient (fun _ => inr resp) (fun _ => inr resp)).

Definition Dial (conn : websocket.Conn) (ctx : context.Context) (endpoint : string)
    (c : http.Client) : error + websocket.Conn := inr conn.

(** A context cancelled once [n] messages have been handled. *)
Definition cancelledAfter (n : nat) : context.Context := fun polls => (n <=? polls)%nat.

Definition configMessage (ts k o v : string) : json.value :=
  json.JObject
    [ ("timestamp", json.JString ts); ("type", json.JString "config");
      ("metadata",
       json.JObject
         [ ("key", json.JString k); ("old_value", json.JString o);
           ("value", json.JString v) ]) ].

Definition deviceMessage (ts n a t p : string) : json.value :=
  json.JObject
    [ ("timestamp", json.JString ts); ("type", json.JString "device");
      ("metadata",
       json.JObject
         [ ("name", json.JString n); ("action", json.JString a);
           ("config", json.JObject [ ("type", json.JString t); ("path", json.JString p) ]) ]) ].

(** Connections for the examples. *)
Definition pingConn : websocket.Conn :=
  [ inr (json.Wellformed (configMessage "t0" "user.a" "1" "2"));
    inr (json.Wellformed (json.JString "ping"));
    inr (json.Wellformed (configMessage "t2" "user.a" "2" "3")) ].

Definition eofConn : websocket.Conn :=
  [ inr (json.Wellformed (configMessage "t0" "user.a" "1" "2"));
    inl (errorString "EOF") ].

Definition configConn : websocket.Conn :=
  [ inr (json.Wellformed (configMessage "t0" "user.a" "1" "2")) ].

Definition deviceConn : websocket.Conn :=
  [ inr (json.Wellformed (deviceMessage "t1" "eth0" "added" "nic" "/dev/net")) ].

(** [ListenForEvents] on the sample host. *)
Definition listenOn (conn : websocket.Conn) (ctx : context.Context)
    (events : list incus.EventType) : guest.Listening :=
  guest.ListenForEvents JoinPath Parse URL_String (Dial conn)
    (client (http.mkResponse 200 (inr ""))) ctx events.

End sample.

(** * Properties *)

Import json.

(** ** The envelope decoder *)

Section Envelope.

Implicit Types (members : list (string * value)) (e : incus.Event).

(** What [UnmarshalJSON] does on an object whose [timestamp] and [type]
    members are strings. *)
Lemma UnmarshalJSON_strings e members ts ty :
  insertMembers members ∅ !! "timestamp" = Some (JString ts) ->
  insertMembers members ∅ !! "type" = Some (JString ty) ->
  incus.UnmarshalJSON e (Wellformed (JObject members)) =
    let e := incus.mkEvent ts ty (incus.Config e) (incus.Device e) in
    if String.eqb ty "config" then
      match insertMembers members ∅ !! "metadata" with
      | None => (e, None)
      | Some meta =>
          let '(c, err) := incus.storeConfigUpdateMetadata meta (incus.Config e) in
          (incus.mkEvent ts ty c (incus.Device e), err)
      end
    else if String.eqb ty "device" then
      match insertMembers members ∅ !! "metadata" with
      | None => (e, None)
      | Some meta =>
          let '(d, err) := incus.storeDeviceUpdateMetadata meta (incus.Device e) in
          (incus.mkEvent ts ty (incus.Config e) d, err)
      end
    else (e, None).
Proof.
  intros Hts Hty. unfold incus.UnmarshalJSON. cbn [Unmarshal storeRawMap].
  unfold index. rewrite Hts, Hty. cbn.
  destruct (String.eqb ty "config"); [|destruct (String.eqb ty "device")];
    try reflexivity; destruct (insertMembers members ∅ !! "metadata"); reflexivity.
Qed.

Lemma Valid_false ty :
  incus.Valid ty = false <-> ty <> "config" /\ ty <> "device".
Proof.
  unfold incus.Valid, incus.EventTypeConfig, incus.EventTypeDevice.
  destruct (String.eqb_spec ty "config"), (String.eqb_spec ty "device");
    cbn; intuition congruence.
Qed.

End Envelope.

(** C1 (as the code has it): a message whose [type] is a string outside
    the two known constants, and whose [timestamp] is a string, decodes
    without an error; the event carries that type and timestamp, and both
    payloads are left as they were, whatever [metadata] holds. *)
Theorem UnmarshalJSON_unknown_type_accepted :
  forall (e : incus.Event) (members : list (string * value)) (ts ty : string),
    insertMembers members ∅ !! "timestamp" = Some (JString ts) ->
    insertMembers members ∅ !! "type" = Some (JString ty) ->
    incus.Valid ty = false ->
    incus.UnmarshalJSON e (Wellformed (JObject members)) =
      (incus.mkEvent ts ty (incus.Config e) (incus.Device e), None).
Proof.
  intros e members ts ty Hts Hty Hv.
  rewrite (UnmarshalJSON_strings e members ts ty Hts Hty).
  apply Valid_false in Hv as [Hc Hd].
  apply String.eqb_neq in Hc, Hd. cbn zeta. now rewrite Hc, Hd.
Qed.

Lemma UnmarshalJSON_unknown_type_accepted_witness :
  incus.UnmarshalJSON incus.zeroEvent
    (Wellformed
       (JObject
          [ ("timestamp", JString "2024-01-01T00:00:00Z"); ("type", JString "lifecycle");
            ("metadata", JObject [ ("key", JString "user.a") ]) ])) =
    (incus.mkEvent "2024-01-01T00:00:00Z" "lifecycle" incus.zeroConfigUpdateMetadata
       incus.zeroDeviceUpdateMetadata, None).
Proof.
  apply (UnmarshalJSON_unknown_type_accepted incus.zeroEvent _
           "2024-01-01T00:00:00Z" "lifecycle"); reflexivity.
Defined.

(** C1, refuted as stated: the message with [type = "bogus"] decodes, with
    no error, into an event of type ["bogus"]. *)
Lemma UnmarshalJSON_bogus_decodes :
  incus.Valid "bogus" = false /\
  incus.UnmarshalJSON incus.zeroEvent
    (Wellformed (JObject [ ("timestamp", JString "t"); ("type", JString "bogus") ])) =
    (incus.mkEvent "t" "bogus" incus.zeroConfigUpdateMetadata
       incus.zeroDeviceUpdateMetadata, None).
Proof. split; reflexivity. Qed.

(** ** Payloads *)

(** Case analysis on a list known to be a rearrangement of an explicit
    one. *)
Ltac rearrangements H :=
  apply permutations_Permutation in H; cbn in H;
  repeat (apply elem_of_cons in H as [-> | H]); [.. | by apply elem_of_nil in H].

Lemma storeConfigUpdateMetadata_shape (meta : list (string * value)) (k o v : string)
    (target : incus.ConfigUpdateMetadata) :
  [ ("key", JString k); ("old_value", JString o); ("value", JString v) ] ≡ₚ meta ->
  incus.storeConfigUpdateMetadata (JObject meta) target =
    (incus.mkConfigUpdateMetadata k o v, None).
Proof. intros H. rearrangements H; reflexivity. Qed.

Lemma storeDeviceConfig_shape (cfg : list (string * value)) (t p : string) :
  [ ("type", JString t); ("path", JString p) ] ≡ₚ cfg ->
  forall target : incus.DeviceConfig,
  storeStruct "incus.DeviceConfig" incus.DeviceConfig_fields (JObject cfg) target =
    (incus.mkDeviceConfig t p, None).
Proof. intros H target. rearrangements H; reflexivity. Qed.

Lemma storeDeviceUpdateMetadata_shape (meta cfg : list (string * value))
    (n a t p : string) (target : incus.DeviceUpdateMetadata) :
  [ ("name", JString n); ("action", JString a); ("config", JObject cfg) ] ≡ₚ meta ->
  [ ("type", JString t); ("path", JString p) ] ≡ₚ cfg ->
  incus.storeDeviceUpdateMetadata (JObject meta) target =
    (incus.mkDeviceUpdateMetadata n a (incus.mkDeviceConfig t p), None).
Proof.
  intros H Hcfg.
  rearrangements H.
  all: unfold incus.storeDeviceUpdateMetadata, storeStruct at 1, object.
  all: cbn -[storeStruct].
  all: now rewrite !(storeDeviceConfig_shape cfg t p Hcfg).
Qed.

(** C3: a message of type [config] whose [metadata] is an object with
    exactly the members [key], [old_value] and [value], strings, in any
    order, decodes into a fresh event without an error: the event has the
    message's timestamp, type [config], these three values, and a zero
    device payload. The same for type [device], with [name], [action] and
    a [config] object of [type] and [path], and a zero config payload. *)
Theorem UnmarshalJSON_payload :
  (forall (members meta : list (string * value)) (ts k o v : string),
      insertMembers members ∅ !! "timestamp" = Some (JString ts) ->
      insertMembers members ∅ !! "type" = Some (JString "config") ->
      insertMembers members ∅ !! "metadata" = Some (JObject meta) ->
      [ ("key", JString k); ("old_value", JString o); ("value", JString v) ] ≡ₚ meta ->
      incus.UnmarshalJSON incus.zeroEvent (Wellformed (JObject members)) =
        (incus.mkEvent ts incus.EventTypeConfig (incus.mkConfigUpdateMetadata k o v)
           incus.zeroDeviceUpdateMetadata, None))
  /\
  (forall (members meta cfg : list (string * value)) (ts n a t p : string),
      insertMembers members ∅ !! "timestamp" = Some (JString ts) ->
      insertMembers members ∅ !! "type" = Some (JString "device") ->
      insertMembers members ∅ !! "metadata" = Some (JObject meta) ->
      [ ("name", JString n); ("action", JString a); ("config", JObject cfg) ] ≡ₚ meta ->
      [ ("type", JString t); ("path", JString p) ] ≡ₚ cfg ->
      incus.UnmarshalJSON incus.zeroEvent (Wellformed (JObject members)) =
        (incus.mkEvent ts incus.EventTypeDevice incus.zeroConfigUpdateMetadata
           (incus.mkDeviceUpdateMetadata n a (incus.mkDeviceConfig t p)), None)).
Proof.
  split.
  - intros members meta ts k o v Hts Hty Hmeta Hshape.
    rewrite (UnmarshalJSON_strings _ members ts "config" Hts Hty).
    cbn. rewrite Hmeta.
    now rewrite (storeConfigUpdateMetadata_shape meta k o v _ Hshape).
  - intros members meta cfg ts n a t p Hts Hty Hmeta Hshape Hcfg.
    rewrite (UnmarshalJSON_strings _ members ts "device" Hts Hty).
    cbn. rewrite Hmeta.
    now rewrite (storeDeviceUpdateMetadata_shape meta cfg n a t p _ Hshape Hcfg).
Qed.

Lemma UnmarshalJSON_payload_witness :
  incus.UnmarshalJSON incus.zeroEvent
    (Wellformed
       (JObject
          [ ("type", JString "config");
            ("metadata",
             JObject
               [ ("value", JString "2"); ("key", JString "user.a");
                 ("old_value", JString "1") ]);
            ("timestamp", JString "t0") ])) =
    (incus.mkEvent "t0" "config" (incus.mkConfigUpdateMetadata "user.a" "1" "2")
       incus.zeroDeviceUpdateMetadata, None)
  /\
  incus.UnmarshalJSON incus.zeroEvent
    (Wellformed (sample.deviceMessage "t1" "eth0" "added" "nic" "/dev/net")) =
    (incus.mkEvent "t1" "device" incus.zeroConfigUpdateMetadata
       (incus.mkDeviceUpdateMetadata "eth0" "added" (incus.mkDeviceConfig "nic" "/dev/net")),
     None).
Proof.
  split.
  - apply (proj1 UnmarshalJSON_payload _
             [ ("value", JString "2"); ("key", JString "user.a"); ("old_value", JString "1") ]
             "t0" "user.a" "1" "2"); try reflexivity.
    apply permutations_Permutation. cbn. set_solver.
  - apply (proj2 UnmarshalJSON_payload _
             [ ("name", JString "eth0"); ("action", JString "added");
               ("config", JObject [ ("type", JString "nic"); ("path", JString "/dev/net") ]) ]
             [ ("type", JString "nic"); ("path", JString "/dev/net") ]
             "t1" "eth0" "added" "nic" "/dev/net"); reflexivity.
Defined.

(** ** Mandatory and optional members *)

Lemma storeString_error gotype v target :
  stringOrNull v = false -> is_Some (storeString gotype v target).2.
Proof. destruct v; cbn; intros; try discriminate; eauto. Qed.

Lemma UnmarshalJSON_timestamp_fails e members :
  match insertMembers members ∅ !! "timestamp" with
  | None => True
  | Some v => stringOrNull v = false
  end ->
  is_Some (incus.UnmarshalJSON e (Wellformed (JObject members))).2.
Proof.
  intros H. unfold incus.UnmarshalJSON. cbn [Unmarshal storeRawMap].
  unfold index. destruct (insertMembers members ∅ !! "timestamp") as [v|]; cbn.
  - destruct v; cbn in *; try discriminate; eauto.
  - eauto.
Qed.

Lemma UnmarshalJSON_type_fails e members :
  match insertMembers members ∅ !! "type" with
  | None => True
  | Some v => stringOrNull v = false
  end ->
  is_Some (incus.UnmarshalJSON e (Wellformed (JObject members))).2.
Proof.
  intros H. unfold incus.UnmarshalJSON. cbn [Unmarshal storeRawMap].
  unfold index.
  destruct (insertMembers members ∅ !! "timestamp") as [v|]; cbn; [|eauto].
  destruct (storeString "string" v (incus.Timestamp e)) as [ts [err|]] eqn:Hts;
    cbn; [eauto|].
  destruct (insertMembers members ∅ !! "type") as [w|]; cbn; [|eauto].
  destruct w; cbn in *; try discriminate; eauto.
Qed.

(** A [null] timestamp, in any message, decodes into a fresh event like an
    empty string in its place. *)
Lemma UnmarshalJSON_null_timestamp (members : list (string * value)) :
  insertMembers members ∅ !! "timestamp" = Some JNull ->
  incus.UnmarshalJSON incus.zeroEvent (Wellformed (JObject members)) =
    incus.UnmarshalJSON incus.zeroEvent
      (Wellformed (JObject (members ++ [("timestamp", JString "")])%list)).
Proof.
  intros Hts. unfold incus.UnmarshalJSON. cbn [Unmarshal storeRawMap].
  unfold index, insertMembers. rewrite foldl_app. fold (insertMembers members ∅).
  cbn [foldl fst snd].
  rewrite lookup_insert_eq, !lookup_insert_ne by discriminate. rewrite Hts.
  reflexivity.
Qed.

(** A [null] type, in any message, decodes into a fresh event like an empty
    string in its place. *)
Lemma UnmarshalJSON_null_type (members : list (string * value)) :
  insertMembers members ∅ !! "type" = Some JNull ->
  incus.UnmarshalJSON incus.zeroEvent (Wellformed (JObject members)) =
    incus.UnmarshalJSON incus.zeroEvent
      (Wellformed (JObject (members ++ [("type", JString "")])%list)).
Proof.
  intros Hty. unfold incus.UnmarshalJSON. cbn [Unmarshal storeRawMap].
  unfold index, insertMembers. rewrite foldl_app. fold (insertMembers members ∅).
  cbn [foldl fst snd].
  rewrite lookup_insert_eq, !lookup_insert_ne by discriminate. rewrite Hty.
  destruct (insertMembers members ∅ !! "timestamp") as [tsv|]; [|reflexivity].
  cbn [Unmarshal].
  destruct (storeString "string" tsv (incus.Timestamp incus.zeroEvent)) as [ts [err|]];
    reflexivity.
Qed.

(** A timestamp and a type that are each a string or [null], without
    metadata. *)
Lemma UnmarshalJSON_strings_or_nulls (members : list (string * value)) (tsv tyv : value) :
  insertMembers members ∅ !! "timestamp" = Some tsv ->
  insertMembers members ∅ !! "type" = Some tyv ->
  stringOrNull tsv = true ->
  stringOrNull tyv = true ->
  insertMembers members ∅ !! "metadata" = None ->
  incus.UnmarshalJSON incus.zeroEvent (Wellformed (JObject members)) =
    (incus.mkEvent
       (match tsv with JString ts => ts | _ => "" end)
       (match tyv with JString ty => ty | _ => "" end)
       incus.zeroConfigUpdateMetadata incus.zeroDeviceUpdateMetadata, None).
Proof.
  intros Hts Hty Htsv Htyv Hmeta. unfold incus.UnmarshalJSON.
  cbn [Unmarshal storeRawMap]. unfold index. rewrite Hts, Hty.
  destruct tsv; try discriminate; destruct tyv; try discriminate; cbn;
    rewrite ?Hmeta; try reflexivity;
    match goal with
    | |- context [String.eqb ?ty "config"] =>
        now destruct (String.eqb ty "config"), (String.eqb ty "device")
    end.
Qed.

(** C4 (as the code has it): decoding fails when [type] or [timestamp] is
    missing, and when either is present with a value that is neither a
    string nor [null]; a message with a string timestamp, a known type and
    no [metadata] decodes into a fresh event without an error, both
    payloads zero. A [null] timestamp or type is accepted: in every message
    it decodes like an empty string in its place, so that a message whose
    timestamp and type are each a string or [null], without [metadata],
    decodes without an error into the event that has the strings and is
    empty where a [null] stood. *)
Theorem UnmarshalJSON_mandatory_members :
  (forall (e : incus.Event) (members : list (string * value)),
      insertMembers members ∅ !! "type" = None \/
      insertMembers members ∅ !! "timestamp" = None ->
      is_Some (incus.UnmarshalJSON e (Wellformed (JObject members))).2)
  /\
  (forall (e : incus.Event) (members : list (string * value)) (v : value),
      insertMembers members ∅ !! "type" = Some v \/
      insertMembers members ∅ !! "timestamp" = Some v ->
      stringOrNull v = false ->
      is_Some (incus.UnmarshalJSON e (Wellformed (JObject members))).2)
  /\
  (forall (members : list (string * value)) (ts ty : string),
      insertMembers members ∅ !! "timestamp" = Some (JString ts) ->
      insertMembers members ∅ !! "type" = Some (JString ty) ->
      incus.Valid ty = true ->
      insertMembers members ∅ !! "metadata" = None ->
      incus.UnmarshalJSON incus.zeroEvent (Wellformed (JObject members)) =
        (incus.mkEvent ts ty incus.zeroConfigUpdateMetadata
           incus.zeroDeviceUpdateMetadata, None))
  /\
  (forall (members : list (string * value)),
      insertMembers members ∅ !! "timestamp" = Some JNull ->
      incus.UnmarshalJSON incus.zeroEvent (Wellformed (JObject members)) =
        incus.UnmarshalJSON incus.zeroEvent
          (Wellformed (JObject (members ++ [("timestamp", JString "")])%list)))
  /\
  (forall (members : list (string * value)),
      insertMembers members ∅ !! "type" = Some JNull ->
      incus.UnmarshalJSON incus.zeroEvent (Wellformed (JObject members)) =
        incus.UnmarshalJSON incus.zeroEvent
          (Wellformed (JObject (members ++ [("type", JString "")])%list)))
  /\
  (forall (members : list (string * value)) (tsv tyv : value),
      insertMembers members ∅ !! "timestamp" = Some tsv ->
      insertMembers members ∅ !! "type" = Some tyv ->
      stringOrNull tsv = true ->
      stringOrNull tyv = true ->
      insertMembers members ∅ !! "metadata" = None ->
      incus.UnmarshalJSON incus.zeroEvent (Wellformed (JObject members)) =
        (incus.mkEvent
           (match tsv with JString ts => ts | _ => "" end)
           (match tyv with JString ty => ty | _ => "" end)
           incus.zeroConfigUpdateMetadata incus.zeroDeviceUpdateMetadata, None)).
Proof.
  split; [|split; [|split; [|split; [|split]]]].
  - intros e members [H | H].
    + apply UnmarshalJSON_type_fails. now rewrite H.
    + apply UnmarshalJSON_timestamp_fails. now rewrite H.
  - intros e members v [H | H] Hv.
    + apply UnmarshalJSON_type_fails. now rewrite H.
    + apply UnmarshalJSON_timestamp_fails. now rewrite H.
  - intros members ts ty Hts Hty Hv Hmeta.
    rewrite (UnmarshalJSON_strings _ members ts ty Hts Hty). cbn zeta.
    rewrite Hmeta. now destruct (String.eqb ty "config"), (String.eqb ty "device").
  - exact UnmarshalJSON_null_timestamp.
  - exact UnmarshalJSON_null_type.
  - exact UnmarshalJSON_strings_or_nulls.
Qed.

Lemma UnmarshalJSON_mandatory_members_witness :
  is_Some
    (incus.UnmarshalJSON incus.zeroEvent
       (Wellformed (JObject [ ("timestamp", JString "t") ]))).2
  /\
  is_Some
    (incus.UnmarshalJSON incus.zeroEvent
       (Wellformed (JObject [ ("timestamp", JNumber "17"); ("type", JString "config") ]))).2
  /\
  incus.UnmarshalJSON incus.zeroEvent
    (Wellformed (JObject [ ("timestamp", JString "t"); ("type", JString "config") ])) =
    (incus.mkEvent "t" "config" incus.zeroConfigUpdateMetadata
       incus.zeroDeviceUpdateMetadata, None)
  /\
  incus.UnmarshalJSON incus.zeroEvent
    (Wellformed
       (JObject
          [ ("timestamp", JNull); ("type", JString "config");
            ("metadata", JObject [ ("key", JString "user.a") ]) ])) =
  incus.UnmarshalJSON incus.zeroEvent
    (Wellformed
       (JObject
          [ ("timestamp", JNull); ("type", JString "config");
            ("metadata", JObject [ ("key", JString "user.a") ]);
            ("timestamp", JString "") ]))
  /\
  incus.UnmarshalJSON incus.zeroEvent
    (Wellformed
       (JObject
          [ ("timestamp", JString "t"); ("type", JNull);
            ("metadata", JObject [ ("key", JString "user.a") ]) ])) =
  incus.UnmarshalJSON incus.zeroEvent
    (Wellformed
       (JObject
          [ ("timestamp", JString "t"); ("type", JNull);
            ("metadata", JObject [ ("key", JString "user.a") ]);
            ("type", JString "") ]))
  /\
  incus.UnmarshalJSON incus.zeroEvent
    (Wellformed (JObject [ ("timestamp", JNull); ("type", JNull) ])) =
    (incus.mkEvent "" "" incus.zeroConfigUpdateMetadata incus.zeroDeviceUpdateMetadata, None).
Proof.
  destruct UnmarshalJSON_mandatory_members
    as (Hmissing & Hshape & Hbare & Hnullts & Hnullty & Hnulls).
  split; [|split; [|split; [|split; [|split]]]].
  - apply Hmissing. left. reflexivity.
  - apply (Hshape _ _ (JNumber "17")); [right|]; reflexivity.
  - apply (Hbare _ "t" "config"); reflexivity.
  - apply (Hnullts
             [ ("timestamp", JNull); ("type", JString "config");
               ("metadata", JObject [ ("key", JString "user.a") ]) ]).
    reflexivity.
  - apply (Hnullty
             [ ("timestamp", JString "t"); ("type", JNull);
               ("metadata", JObject [ ("key", JString "user.a") ]) ]).
    reflexivity.
  - apply (Hnulls [ ("timestamp", JNull); ("type", JNull) ] JNull JNull); reflexivity.
Defined.

(** C4, refuted as stated: a [null] in place of the timestamp, or of the
    type, is not a string, and the message still decodes without an
    error. *)
Lemma UnmarshalJSON_null_member_decodes :
  incus.UnmarshalJSON incus.zeroEvent
    (Wellformed (JObject [ ("timestamp", JNull); ("type", JString "config") ])) =
    (incus.mkEvent "" "config" incus.zeroConfigUpdateMetadata
       incus.zeroDeviceUpdateMetadata, None)
  /\
  incus.UnmarshalJSON incus.zeroEvent
    (Wellformed (JObject [ ("timestamp", JString "t"); ("type", JNull) ])) =
    (incus.mkEvent "t" "" incus.zeroConfigUpdateMetadata
       incus.zeroDeviceUpdateMetadata, None).
Proof. split; reflexivity. Qed.

(** ** Config-key lookups *)

Lemma formattedKey_prefixed (key : string) :
  guest.Config_formattedKey key =
    (if strings.HasPrefix key "user." || strings.HasPrefix key "cloud-init."
     then key else "user." ++ key)
  /\ guest.HasConfig_formattedKey key = guest.Config_formattedKey key.
Proof.
  unfold guest.Config_formattedKey, guest.HasConfig_formattedKey.
  now destruct (strings.HasPrefix key "user."), (strings.HasPrefix key "cloud-init.").
Qed.

Lemma HasPrefix_app (prefix s : string) : strings.HasPrefix (prefix ++ s) prefix = true.
Proof.
  unfold strings.HasPrefix. induction prefix as [|a prefix IH].
  - now destruct s.
  - change (String a prefix ++ s) with (String a (prefix ++ s)). cbn.
    destruct (ascii_dec a a); [exact IH | congruence].
Qed.

Lemma Is_Errorf_w_d (err : error) (n : Z) :
  errors.Is (fmt.Errorf_w_d err n) err = true.
Proof.
  cbn. rewrite orb_true_iff. right.
  destruct err; cbn; now rewrite bool_decide_eq_true_2.
Qed.

Section OneShot.

Variable JoinPath : string -> list string -> error + string.
Variable scan : string -> json.data.

(** C7: a lookup of [key], by [Config] or by [HasConfig], makes one
    request, and the last path element it was built from is [key] itself
    when [key] starts with ["user."] or ["cloud-init."], and ["user."]
    followed by [key] otherwise. *)
Theorem lookup_requests_prefixed_key :
  forall (g : guest.GuestClient) (key endpoint : string),
    JoinPath "http://"
      [ guest.ConfigPath;
        if strings.HasPrefix key "user." || strings.HasPrefix key "cloud-init."
        then key else "user." ++ key ] = inr endpoint ->
    (guest.Config JoinPath g key).1 = [http.mkRequest "GET" endpoint] /\
    (guest.HasConfig JoinPath g key).1 = [http.mkRequest "HEAD" endpoint].
Proof.
  intros g key endpoint HJ.
  destruct (formattedKey_prefixed key) as [HC HH].
  unfold guest.Config, guest.HasConfig. rewrite HH, HC, HJ. cbn zeta.
  split.
  - destruct (http.Get (guest.c g) endpoint) as [err|resp]; [reflexivity|].
    destruct (http.StatusCode resp =? http.StatusNotFound)%Z; [reflexivity|].
    destruct (negb (http.StatusCode resp =? http.StatusOK)%Z); [reflexivity|].
    now destruct (http.Body resp).
  - destruct (http.Head (guest.c g) endpoint) as [err|resp]; [reflexivity|].
    destruct (http.StatusCode resp =? http.StatusNotFound)%Z; [reflexivity|].
    now destruct (negb (http.StatusCode resp =? http.StatusOK)%Z).
Qed.

(** C8: when the host answers a config-key lookup with status 404,
    [Config] returns the empty string and [HasConfig] returns false, both
    without an error; with a status other than 200 and 404 both return an
    error that wraps [UnexpectedStatusCode] and whose message ends with the
    status code; with status 200 [HasConfig] returns true and [Config] the
    body that was read, without an error. Each call is taken with the
    answer to its own request only: the GET for [Config], the HEAD for
    [HasConfig]. *)
Theorem lookup_status :
  forall (g : guest.GuestClient) (key endpoint : string),
    JoinPath "http://" [ guest.ConfigPath; guest.Config_formattedKey key ] = inr endpoint ->
    (forall got : http.Response,
       http.Get (guest.c g) endpoint = inr got ->
       (http.StatusCode got = 404%Z -> (guest.Config JoinPath g key).2 = ("", None)) /\
       (http.StatusCode got <> 404%Z -> http.StatusCode got <> 200%Z ->
          exists err,
            (guest.Config JoinPath g key).2 = ("", Some err) /\
            errors.Is err guest.UnexpectedStatusCode = true /\
            errors.Error err =
              "unexpected status code: " ++ fmt.itoa (http.StatusCode got)) /\
       (http.StatusCode got = 200%Z ->
          forall body, http.Body got = inr body ->
            (guest.Config JoinPath g key).2 = (body, None)))
    /\
    (forall headed : http.Response,
       http.Head (guest.c g) endpoint = inr headed ->
       (http.StatusCode headed = 404%Z ->
          (guest.HasConfig JoinPath g key).2 = (false, None)) /\
       (http.StatusCode headed <> 404%Z -> http.StatusCode headed <> 200%Z ->
          exists err,
            (guest.HasConfig JoinPath g key).2 = (false, Some err) /\
            errors.Is err guest.UnexpectedStatusCode = true /\
            errors.Error err =
              "unexpected status code: " ++ fmt.itoa (http.StatusCode headed)) /\
       (http.StatusCode headed = 200%Z ->
          (guest.HasConfig JoinPath g key).2 = (true, None))).
Proof.
  intros g key endpoint HJ.
  destruct (formattedKey_prefixed key) as [_ Hsame].
  split.
  - intros got HG.
    unfold guest.Config, http.StatusNotFound, http.StatusOK.
    rewrite HJ, HG. cbn zeta.
    split; [|split].
    + intros ->. reflexivity.
    + intros H404 H200.
      apply Z.eqb_neq in H404, H200. rewrite H404, H200. cbn.
      eexists. split; [reflexivity|]. split; [apply Is_Errorf_w_d | reflexivity].
    + intros -> body ->. reflexivity.
  - intros headed HH.
    unfold guest.HasConfig, http.StatusNotFound, http.StatusOK.
    rewrite Hsame, HJ, HH. cbn zeta.
    split; [|split].
    + intros ->. reflexivity.
    + intros H404 H200.
      apply Z.eqb_neq in H404, H200. rewrite H404, H200. cbn.
      eexists. split; [reflexivity|]. split; [apply Is_Errorf_w_d | reflexivity].
    + intros ->. reflexivity.
Qed.

(** C9: formatting a formatted key changes nothing, since a formatted key
    starts with ["user."] or ["cloud-init."]; [HasConfig] and [Config]
    format a key the same way, and so ask for the same endpoint. *)
Theorem formattedKey_idempotent :
  forall (g : guest.GuestClient) (key : string),
    guest.Config_formattedKey (guest.Config_formattedKey key) =
      guest.Config_formattedKey key /\
    guest.HasConfig_formattedKey (guest.HasConfig_formattedKey key) =
      guest.HasConfig_formattedKey key /\
    (strings.HasPrefix (guest.Config_formattedKey key) "user."
     || strings.HasPrefix (guest.Config_formattedKey key) "cloud-init.") = true /\
    guest.HasConfig_formattedKey key = guest.Config_formattedKey key /\
    http.Endpoint <$> (guest.HasConfig JoinPath g key).1 =
      http.Endpoint <$> (guest.Config JoinPath g key).1.
Proof.
  intros g key.
  assert (Hstarts :
    (strings.HasPrefix (guest.Config_formattedKey key) "user."
     || strings.HasPrefix (guest.Config_formattedKey key) "cloud-init.") = true).
  { rewrite (proj1 (formattedKey_prefixed key)).
    destruct (strings.HasPrefix key "user." || strings.HasPrefix key "cloud-init.") eqn:E.
    - exact E.
    - now rewrite (HasPrefix_app "user." key). }
  assert (Hidem :
    guest.Config_formattedKey (guest.Config_formattedKey key) =
      guest.Config_formattedKey key).
  { rewrite (proj1 (formattedKey_prefixed (guest.Config_formattedKey key))).
    now rewrite Hstarts. }
  split; [exact Hidem|].
  split; [now rewrite !(proj2 (formattedKey_prefixed _))|].
  split; [exact Hstarts|].
  split; [apply formattedKey_prefixed|].
  unfold guest.Config, guest.HasConfig.
  rewrite (proj2 (formattedKey_prefixed key)). cbn zeta.
  destruct (JoinPath "http://" [guest.ConfigPath; guest.Config_formattedKey key])
    as [err|endpoint]; [reflexivity|].
  destruct (http.Head (guest.c g) endpoint) as [e1|r1],
           (http.Get (guest.c g) endpoint) as [e2|r2]; cbn;
    repeat match goal with
           | |- context [if ?b then _ else _] => destruct b
           | |- context [match http.Body ?r with _ => _ end] => destruct (http.Body r)
           end; reflexivity.
Qed.

(** ** The other one-shot calls *)

(** [handlejson] on a response whose status is not 200: never a success;
    the status error once the body was read, the reader's error when it
    could not be read. *)
Lemma handlejson_status {T : Type} (store : value -> T -> T * option error)
    (g : guest.GuestClient) (path endpoint : string) (target : T) (resp : http.Response) :
  JoinPath "http://" [path] = inr endpoint ->
  http.Get (guest.c g) endpoint = inr resp ->
  http.StatusCode resp <> 200%Z ->
  is_Some (guest.handlejson JoinPath scan store g path target).2.2 /\
  (forall payload, http.Body resp = inr payload ->
     (guest.handlejson JoinPath scan store g path target).2 =
       (target, Some (fmt.Errorf_w_d guest.UnexpectedStatusCode (http.StatusCode resp)))) /\
  (forall cause, http.Body resp = inl cause ->
     (guest.handlejson JoinPath scan store g path target).2 =
       (target, Some (fmt.Errorf_w "reader error: " cause))).
Proof.
  intros HJ HG Hstatus. unfold guest.handlejson, http.StatusOK.
  rewrite HJ, HG. apply Z.eqb_neq in Hstatus.
  destruct (http.Body resp) as [err|payload]; cbn.
  - split; [eauto|]. split; [intros ? [=] | now intros ? [= ->]].
  - rewrite Hstatus. cbn. split; [eauto|]. split; [reflexivity | intros ? [=]].
Qed.

(** C10 (as the code has it): [Info], [ListConfig], [Devices] and
    [Metadata] have no tolerance for status 404: on a response with any
    status other than 200, 404 among them, each returns an error, never a
    success. For [Metadata] that error is always the one wrapping
    [UnexpectedStatusCode] with the status code. The other three read the
    body before they look at the status: their error is the one wrapping
    [UnexpectedStatusCode] when the body was read, and [reader error: ...]
    around the reader's error when it could not be read. *)
Theorem one_shot_status_is_error :
  forall (g : guest.GuestClient) (path endpoint : string) (resp : http.Response),
    JoinPath "http://" [path] = inr endpoint ->
    http.Get (guest.c g) endpoint = inr resp ->
    http.StatusCode resp <> 200%Z ->
    let unexpected :=
      fmt.Errorf_w_d guest.UnexpectedStatusCode (http.StatusCode resp) in
    (path = guest.InstanceInfoPath ->
       is_Some (guest.Info JoinPath scan g).2.2 /\
       (forall payload, http.Body resp = inr payload ->
          (guest.Info JoinPath scan g).2 =
            (guest.mkInstanceInfo "" "" "" "", Some unexpected)) /\
       (forall cause, http.Body resp = inl cause ->
          (guest.Info JoinPath scan g).2 =
            (guest.mkInstanceInfo "" "" "" "",
             Some (fmt.Errorf_w "reader error: " cause)))) /\
    (path = guest.ConfigPath ->
       is_Some (guest.ListConfig JoinPath scan g).2.2 /\
       (forall payload, http.Body resp = inr payload ->
          (guest.ListConfig JoinPath scan g).2 = ([], Some unexpected)) /\
       (forall cause, http.Body resp = inl cause ->
          (guest.ListConfig JoinPath scan g).2 =
            ([], Some (fmt.Errorf_w "reader error: " cause)))) /\
    (path = guest.ListDevicesPath ->
       is_Some (guest.Devices JoinPath scan g).2.2 /\
       (forall payload, http.Body resp = inr payload ->
          (guest.Devices JoinPath scan g).2 = (∅, Some unexpected)) /\
       (forall cause, http.Body resp = inl cause ->
          (guest.Devices JoinPath scan g).2 =
            (∅, Some (fmt.Errorf_w "reader error: " cause)))) /\
    (path = guest.MetadataPath ->
       (guest.Metadata JoinPath g).2 = ("", Some unexpected)) /\
    errors.Is unexpected guest.UnexpectedStatusCode = true.
Proof.
  intros g path endpoint resp HJ HG Hstatus unexpected.
  split; [|split; [|split; [|split]]].
  - intros ->. exact (handlejson_status _ g _ endpoint _ resp HJ HG Hstatus).
  - intros ->. exact (handlejson_status _ g _ endpoint _ resp HJ HG Hstatus).
  - intros ->. exact (handlejson_status _ g _ endpoint _ resp HJ HG Hstatus).
  - intros ->. unfold guest.Metadata, http.StatusOK. rewrite HJ, HG.
    apply Z.eqb_neq in Hstatus. now rewrite Hstatus.
  - apply Is_Errorf_w_d.
Qed.

End OneShot.

Lemma lookup_requests_prefixed_key_witness :
  ((guest.Config sample.JoinPath (sample.client (http.mkResponse 200 (inr "bar"))) "foo").1 =
     [http.mkRequest "GET" "http://1.0/1.0/config/user.foo"] /\
   (guest.HasConfig sample.JoinPath (sample.client (http.mkResponse 200 (inr "bar"))) "foo").1 =
     [http.mkRequest "HEAD" "http://1.0/1.0/config/user.foo"]) /\
  ((guest.Config sample.JoinPath (sample.client (http.mkResponse 200 (inr "bar")))
      "cloud-init.foo").1 =
     [http.mkRequest "GET" "http://1.0/1.0/config/cloud-init.foo"] /\
   (guest.HasConfig sample.JoinPath (sample.client (http.mkResponse 200 (inr "bar")))
      "cloud-init.foo").1 =
     [http.mkRequest "HEAD" "http://1.0/1.0/config/cloud-init.foo"]).
Proof.
  split.
  - apply (lookup_requests_prefixed_key sample.JoinPath _ "foo"). reflexivity.
  - apply (lookup_requests_prefixed_key sample.JoinPath _ "cloud-init.foo"). reflexivity.
Defined.

Lemma lookup_status_witness :
  (guest.Config sample.JoinPath (sample.client (http.mkResponse 404 (inr ""))) "foo").2 =
    ("", None) /\
  (guest.HasConfig sample.JoinPath (sample.client (http.mkResponse 404 (inr ""))) "foo").2 =
    (false, None) /\
  (exists err,
     (guest.Config sample.JoinPath (sample.client (http.mkResponse 500 (inr ""))) "foo").2 =
       ("", Some err) /\
     errors.Is err guest.UnexpectedStatusCode = true /\
     errors.Error err = "unexpected status code: 500") /\
  (exists err,
     (guest.HasConfig sample.JoinPath
        (guest.mkGuestClient
           (http.mkClient (fun _ => inl (errorString "GET is not answered"))
              (fun _ => inr (http.mkResponse 503 (inr ""))))) "foo").2 =
       (false, Some err) /\
     errors.Is err guest.UnexpectedStatusCode = true /\
     errors.Error err = "unexpected status code: 503") /\
  (guest.Config sample.JoinPath
     (guest.mkGuestClient
        (http.mkClient (fun _ => inr (http.mkResponse 200 (inr "bar")))
           (fun _ => inl (errorString "HEAD is not answered")))) "foo").2 =
    ("bar", None) /\
  (guest.HasConfig sample.JoinPath (sample.client (http.mkResponse 200 (inr "bar"))) "foo").2 =
    (true, None).
Proof.
  pose proof (fun g =>
    lookup_status sample.JoinPath g "foo" "http://1.0/1.0/config/user.foo" eq_refl) as H.
  destruct (proj1 (H (sample.client (http.mkResponse 404 (inr ""))))
              (http.mkResponse 404 (inr "")) eq_refl) as (Habsent & _).
  destruct (proj2 (H (sample.client (http.mkResponse 404 (inr ""))))
              (http.mkResponse 404 (inr "")) eq_refl) as (Hmissing & _).
  destruct (proj1 (H (sample.client (http.mkResponse 500 (inr ""))))
              (http.mkResponse 500 (inr "")) eq_refl) as (_ & Hfailed & _).
  destruct (proj2 (H (guest.mkGuestClient
                        (http.mkClient (fun _ => inl (errorString "GET is not answered"))
                           (fun _ => inr (http.mkResponse 503 (inr ""))))))
              (http.mkResponse 503 (inr "")) eq_refl) as (_ & Hunavailable & _).
  destruct (proj1 (H (guest.mkGuestClient
                        (http.mkClient (fun _ => inr (http.mkResponse 200 (inr "bar")))
                           (fun _ => inl (errorString "HEAD is not answered")))))
              (http.mkResponse 200 (inr "bar")) eq_refl) as (_ & _ & Hbody).
  destruct (proj2 (H (sample.client (http.mkResponse 200 (inr "bar"))))
              (http.mkResponse 200 (inr "bar")) eq_refl) as (_ & _ & Hpresent).
  split; [|split; [|split; [|split; [|split]]]].
  - apply Habsent. reflexivity.
  - apply Hmissing. reflexivity.
  - apply Hfailed; cbn; lia.
  - apply Hunavailable; cbn; lia.
  - apply Hbody; reflexivity.
  - apply Hpresent. reflexivity.
Defined.

Lemma one_shot_status_is_error_witness :
  (guest.Info sample.JoinPath sample.scan (sample.client (http.mkResponse 404 (inr "")))).2 =
    (guest.mkInstanceInfo "" "" "" "",
     Some (wrapError "unexpected status code: 404" guest.UnexpectedStatusCode)) /\
  (guest.ListConfig sample.JoinPath sample.scan
     (sample.client (http.mkResponse 502 (inl (errorString "unexpected EOF"))))).2 =
    ([], Some (wrapError "reader error: unexpected EOF" (errorString "unexpected EOF"))) /\
  (guest.Metadata sample.JoinPath (sample.client (http.mkResponse 404 (inr "")))).2 =
    ("", Some (wrapError "unexpected status code: 404" guest.UnexpectedStatusCode)).
Proof.
  destruct (one_shot_status_is_error sample.JoinPath sample.scan
              (sample.client (http.mkResponse 404 (inr ""))) guest.InstanceInfoPath
              "http://1.0/1.0" (http.mkResponse 404 (inr "")) eq_refl eq_refl
              ltac:(cbn; lia)) as (HInfo & _).
  destruct (one_shot_status_is_error sample.JoinPath sample.scan
              (sample.client (http.mkResponse 502 (inl (errorString "unexpected EOF"))))
              guest.ConfigPath "http://1.0/1.0/config"
              (http.mkResponse 502 (inl (errorString "unexpected EOF"))) eq_refl eq_refl
              ltac:(cbn; lia)) as (_ & HListConfig & _).
  destruct (one_shot_status_is_error sample.JoinPath sample.scan
              (sample.client (http.mkResponse 404 (inr ""))) guest.MetadataPath
              "http://1.0/1.0/meta-data" (http.mkResponse 404 (inr "")) eq_refl eq_refl
              ltac:(cbn; lia)) as (_ & _ & _ & HMetadata & _).
  split; [|split].
  - exact (proj1 (proj2 (HInfo eq_refl)) "" eq_refl).
  - exact (proj2 (proj2 (HListConfig eq_refl)) (errorString "unexpected EOF") eq_refl).
  - exact (HMetadata eq_refl).
Defined.

(** C10, refuted as stated: on a 404 whose body cannot be read, [Info]
    returns the reader's error, which is not the unexpected-status
    error. *)
Lemma one_shot_status_unreadable_body :
  (guest.Info sample.JoinPath sample.scan
     (sample.client (http.mkResponse 404 (inl (errorString "unexpected EOF"))))).2 =
    (guest.mkInstanceInfo "" "" "" "",
     Some (wrapError "reader error: unexpected EOF" (errorString "unexpected EOF"))) /\
  errors.Is (wrapError "reader error: unexpected EOF" (errorString "unexpected EOF"))
    guest.UnexpectedStatusCode = false /\
  wrapError "reader error: unexpected EOF" (errorString "unexpected EOF") <>
    fmt.Errorf_w_d guest.UnexpectedStatusCode 404.
Proof.
  split; [reflexivity|]. split; [reflexivity | discriminate].
Qed.

(** ** The subscription query *)

Lemma strEvents_filter (events : list incus.EventType) :
  guest.strEvents events = List.filter incus.Valid events.
Proof.
  unfold guest.strEvents.
  enough (forall acc,
    foldl (fun acc ev => if incus.Valid ev then (acc ++ [ev])%list else acc) acc events =
      (acc ++ List.filter incus.Valid events)%list) as H by apply (H []).
  induction events as [|ev events IH]; intros acc; cbn.
  - now rewrite app_nil_r.
  - rewrite IH. destruct (incus.Valid ev); [|reflexivity].
    now rewrite <- app_assoc.
Qed.

Lemma Encode_single (key value : string) :
  url.Encode (url.Add key value ∅) = url.QueryEscape key ++ "=" ++ url.QueryEscape value.
Proof.
  unfold url.Encode, url.Add, url.sortedKeys, url.Values.
  rewrite lookup_empty. cbn [default app].
  rewrite insert_empty, map_to_list_singleton. cbn.
  now rewrite lookup_singleton_eq.
Qed.

Lemma QueryEscape_app (s t : string) :
  url.QueryEscape (s ++ t) = url.QueryEscape s ++ url.QueryEscape t.
Proof.
  induction s as [|a s IH]; [reflexivity|].
  change (String a s ++ t) with (String a (s ++ t)).
  cbn [url.QueryEscape]. rewrite IH.
  destruct (Ascii.eqb a " "); [reflexivity|]. now destruct (url.shouldEscape a).
Qed.

Lemma QueryEscape_Valid (ev : incus.EventType) :
  incus.Valid ev = true -> url.QueryEscape ev = ev.
Proof.
  unfold incus.Valid, incus.EventTypeConfig, incus.EventTypeDevice.
  destruct (String.eqb_spec ev "config") as [->|_]; [reflexivity|].
  destruct (String.eqb_spec ev "device") as [->|_]; [reflexivity|discriminate].
Qed.

(** The escaped comma-joined list of valid event types is the list joined
    by the escaped comma. *)
Lemma QueryEscape_Join (evs : list incus.EventType) :
  Forall (fun ev => incus.Valid ev = true) evs ->
  url.QueryEscape (strings.Join evs ",") = strings.Join evs "%2C".
Proof.
  unfold strings.Join. induction 1 as [|ev evs Hev Hevs IH]; [reflexivity|].
  destruct evs as [|ev' evs].
  - now apply QueryEscape_Valid.
  - change (String.concat "," (ev :: ev' :: evs))
      with (ev ++ "," ++ String.concat "," (ev' :: evs)).
    change (String.concat "%2C" (ev :: ev' :: evs))
      with (ev ++ "%2C" ++ String.concat "%2C" (ev' :: evs)).
    rewrite !QueryEscape_app, IH. now rewrite (QueryEscape_Valid ev Hev).
Qed.

Lemma Forall_filter_Valid (events : list incus.EventType) :
  Forall (fun ev => incus.Valid ev = true) (List.filter incus.Valid events).
Proof.
  apply List.Forall_forall. intros ev Hin. now apply List.filter_In in Hin.
Qed.

Section Subscription.

Variable JoinPath : string -> list string -> error + string.
Variable Parse : string -> error + url.URL.
Variable URL_String : url.URL -> string.
Variable Dial : context.Context -> string -> http.Client -> error + websocket.Conn.

(** C2 (as the code has it): with no requested types the endpoint is
    dialled as joined, with no query; with at least one requested type the
    query of the dialled endpoint is the single parameter [type], its
    value the comma-joined list of exactly the valid requested types, in
    order, the comma escaped; the value is empty when none is valid. *)
Theorem subscription_query :
  forall (g : guest.GuestClient) (ctx : context.Context)
         (events : list incus.EventType) (endpoint : string),
    JoinPath "ws://" [guest.EventsPath] = inr endpoint ->
    (events = [] ->
       guest.dialed (guest.ListenForEvents JoinPath Parse URL_String Dial g ctx events) = Some endpoint) /\
    (events <> [] ->
       forall parsed, Parse endpoint = inr parsed ->
         guest.dialed (guest.ListenForEvents JoinPath Parse URL_String Dial g ctx events) =
           Some (URL_String
                   (url.setRawQuery
                      ("type=" ++ url.QueryEscape
                                    (strings.Join (List.filter incus.Valid events) ","))
                      parsed)) /\
         url.QueryEscape (strings.Join (List.filter incus.Valid events) ",") =
           strings.Join (List.filter incus.Valid events) "%2C").
Proof.
  intros g ctx events endpoint HJ. unfold guest.ListenForEvents. rewrite HJ.
  split.
  - intros ->. cbn.
    destruct (Dial ctx endpoint (guest.c g)) as [err|conn]; [reflexivity|].
    now destruct (guest.listen ctx 0 conn []).
  - intros Hne parsed HP.
    destruct events as [|ev events]; [congruence|].
    cbn [length Nat.ltb Nat.leb]. rewrite HP, Encode_single, strEvents_filter.
    split; [|apply QueryEscape_Join, Forall_filter_Valid].
    change (url.QueryEscape "type") with "type".
    match goal with
    | |- context [Dial ctx ?e (guest.c g)] =>
        destruct (Dial ctx e (guest.c g)) as [err|conn]; [reflexivity|]
    end.
    now destruct (guest.listen ctx 0 conn []).
Qed.

End Subscription.

Lemma subscription_query_witness :
  guest.dialed
    (guest.ListenForEvents sample.JoinPath sample.Parse sample.URL_String (sample.Dial [])
       (sample.client (http.mkResponse 200 (inr ""))) (sample.cancelledAfter 0) []) =
    Some "ws://1.0/1.0/events"
  /\
  guest.dialed
    (guest.ListenForEvents sample.JoinPath sample.Parse sample.URL_String (sample.Dial [])
       (sample.client (http.mkResponse 200 (inr ""))) (sample.cancelledAfter 0)
       ["config"; "invalid"; "device"]) =
    Some "ws://1.0/1.0/events?type=config%2Cdevice".
Proof.
  split.
  - apply (subscription_query sample.JoinPath sample.Parse sample.URL_String
             (sample.Dial []) _ _ [] "ws://1.0/1.0/events" eq_refl). reflexivity.
  - destruct (subscription_query sample.JoinPath sample.Parse sample.URL_String
                (sample.Dial []) (sample.client (http.mkResponse 200 (inr "")))
                (sample.cancelledAfter 0) ["config"; "invalid"; "device"]
                "ws://1.0/1.0/events" eq_refl) as [_ Hsome].
    exact (proj1 (Hsome ltac:(discriminate) _ eq_refl)).
Defined.

(** C2, refuted as stated: when every requested type is invalid the
    filtered list is empty, and the endpoint is still dialled with a
    [type] parameter, of empty value. *)
Lemma subscription_query_all_invalid :
  List.filter incus.Valid ["invalid"] = [] /\
  guest.dialed
    (guest.ListenForEvents sample.JoinPath sample.Parse sample.URL_String (sample.Dial [])
       (sample.client (http.mkResponse 200 (inr ""))) (sample.cancelledAfter 0)
       ["invalid"]) =
    Some "ws://1.0/1.0/events?type="
  /\
  guest.dialed
    (guest.ListenForEvents sample.JoinPath sample.Parse sample.URL_String (sample.Dial [])
       (sample.client (http.mkResponse 200 (inr ""))) (sample.cancelledAfter 0) []) =
    Some "ws://1.0/1.0/events".
Proof. repeat split; reflexivity. Qed.

(** ** The subscription loop *)

Local Open Scope list_scope.

(** The loop over a run of messages that decode, while the context stays
    open: every event is handed to the callback, and the loop goes on with
    what follows. *)
Lemma listen_messages (ctx : context.Context) (msgs : list json.data)
    (evs : list incus.Event) :
  Forall2 guest.decodesTo msgs evs ->
  forall (polls : nat) (rest : websocket.Conn) (started : list incus.Event),
    (forall i, (i < length msgs)%nat -> ctx (polls + i)%nat = false) ->
    guest.listen ctx polls ((inr <$> msgs) ++ rest) started =
      guest.listen ctx (polls + length msgs) rest (started ++ evs).
Proof.
  induction 1 as [|message ev msgs evs Hdec Hrest IH]; intros polls rest started Hopen.
  - cbn. now rewrite Nat.add_0_r, app_nil_r.
  - cbn [fmap list_fmap app guest.listen length].
    rewrite <- (Nat.add_0_r polls) at 1. rewrite (Hopen 0%nat) by (cbn; lia).
    rewrite Hdec, IH.
    + rewrite <- app_assoc. f_equal. lia.
    + intros i Hi. replace (S polls + i)%nat with (polls + S i)%nat by lia.
      apply Hopen. cbn. lia.
Qed.

Section Loop.

Variable JoinPath : string -> list string -> error + string.
Variable Parse : string -> error + url.URL.
Variable URL_String : url.URL -> string.
Variable Dial : context.Context -> string -> http.Client -> error + websocket.Conn.

(** Once the connection is open, the call is its loop. *)
Lemma ListenForEvents_connected (g : guest.GuestClient) (ctx : context.Context)
    (events : list incus.EventType) (endpoint : string) (conn : websocket.Conn) :
  guest.dialed (guest.ListenForEvents JoinPath Parse URL_String Dial g ctx events) =
    Some endpoint ->
  Dial ctx endpoint (guest.c g) = inr conn ->
  (guest.callbacks (guest.ListenForEvents JoinPath Parse URL_String Dial g ctx events),
   guest.returned (guest.ListenForEvents JoinPath Parse URL_String Dial g ctx events)) =
    guest.listen ctx 0 conn [].
Proof.
  unfold guest.ListenForEvents.
  destruct (JoinPath "ws://" [guest.EventsPath]) as [err|joined]; [discriminate|].
  match goal with
  | |- context [match ?s with inl _ => _ | inr _ => _ end] =>
      destruct s as [err|target]; [discriminate|]
  end.
  destruct (Dial ctx target (guest.c g)) as [err|conn'] eqn:HD.
  - intros [= ->]. congruence.
  - destruct (guest.listen ctx 0 conn' []) as [started ret] eqn:HL.
    intros [= ->] Hconn. cbn. congruence.
Qed.

(** C5: on an open connection that delivers N messages, all decoding, with
    the context found open at the first N selects and cancelled at the
    next one, the callback is started on exactly the N decoded events, in
    the order of arrival, and the call returns no error. *)
Theorem cancellation_returns_success :
  forall (g : guest.GuestClient) (ctx : context.Context) (events : list incus.EventType)
         (endpoint : string) (msgs : list json.data) (rest : websocket.Conn)
         (evs : list incus.Event),
    let run := guest.ListenForEvents JoinPath Parse URL_String Dial g ctx events in
    guest.dialed run = Some endpoint ->
    Dial ctx endpoint (guest.c g) = inr ((inr <$> msgs) ++ rest) ->
    Forall2 guest.decodesTo msgs evs ->
    (forall i, (i < length msgs)%nat -> ctx i = false) ->
    ctx (length msgs) = true ->
    guest.callbacks run = evs /\
    length (guest.callbacks run) = length msgs /\
    guest.returned run = Some None.
Proof.
  intros g ctx events endpoint msgs rest evs run Hdial Hconn Hdec Hopen Hdone.
  pose proof (ListenForEvents_connected g ctx events endpoint _ Hdial Hconn) as Hrun.
  fold run in Hrun.
  rewrite (listen_messages ctx msgs evs Hdec 0 rest []) in Hrun by exact Hopen.
  cbn [Nat.add app] in Hrun.
  assert (guest.listen ctx (length msgs) rest evs = (evs, Some None)) as Hstop.
  { destruct rest; cbn; now rewrite Hdone. }
  rewrite Hstop in Hrun. injection Hrun as Hcb Hret.
  rewrite Hcb. repeat split; [|exact Hret].
  symmetry. eapply Forall2_length, Hdec.
Qed.

(** C6: on an open connection whose first k messages decode, with the
    context open at the first k+1 selects: when the next read fails, or
    the next message does not decode, the callback is started on exactly
    the k decoded events and the call returns that error, wrapped; nothing
    that follows on the connection is read. *)
Theorem failure_ends_subscription :
  forall (g : guest.GuestClient) (ctx : context.Context) (events : list incus.EventType)
         (endpoint : string) (msgs : list json.data) (next : error + json.data)
         (rest : websocket.Conn) (evs : list incus.Event),
    let run := guest.ListenForEvents JoinPath Parse URL_String Dial g ctx events in
    guest.dialed run = Some endpoint ->
    Dial ctx endpoint (guest.c g) = inr ((inr <$> msgs) ++ next :: rest) ->
    Forall2 guest.decodesTo msgs evs ->
    (forall i, (i <= length msgs)%nat -> ctx i = false) ->
    (forall err, next = inl err ->
       guest.callbacks run = evs /\ length (guest.callbacks run) = length msgs /\
       guest.returned run = Some (Some (fmt.Errorf_w "error in reader: " err))) /\
    (forall message err,
       next = inr message ->
       (guest.Decode message incus.zeroEvent).2 = Some err ->
       guest.callbacks run = evs /\ length (guest.callbacks run) = length msgs /\
       guest.returned run =
         Some (Some (fmt.Errorf_w "error in json unmarshaller: " err))).
Proof.
  intros g ctx events endpoint msgs next rest evs run Hdial Hconn Hdec Hopen.
  pose proof (ListenForEvents_connected g ctx events endpoint _ Hdial Hconn) as Hrun.
  fold run in Hrun.
  rewrite (listen_messages ctx msgs evs Hdec 0 (next :: rest) []) in Hrun
    by (intros i Hi; apply Hopen; cbn; lia).
  cbn [Nat.add app guest.listen] in Hrun.
  rewrite (Hopen (length msgs)) in Hrun by lia.
  pose proof (Forall2_length _ _ _ Hdec) as Hlen.
  split.
  - intros err ->. injection Hrun as Hcb Hret. rewrite Hcb. auto.
  - intros message err -> Hbad.
    destruct (guest.Decode message incus.zeroEvent) as [ev failed].
    cbn in Hbad. subst failed. injection Hrun as Hcb Hret. rewrite Hcb. auto.
Qed.

End Loop.

Lemma cancellation_returns_success_witness :
  let run :=
    guest.ListenForEvents sample.JoinPath sample.Parse sample.URL_String
      (sample.Dial
         [ inr (Wellformed (sample.configMessage "t0" "user.a" "1" "2"));
           inr (Wellformed (sample.deviceMessage "t1" "eth0" "added" "nic" "/dev/net"));
           inr (Wellformed (sample.configMessage "t2" "user.a" "2" "3")) ])
      (sample.client (http.mkResponse 200 (inr ""))) (sample.cancelledAfter 2)
      [incus.EventTypeConfig] in
  guest.callbacks run =
    [ incus.mkEvent "t0" "config" (incus.mkConfigUpdateMetadata "user.a" "1" "2")
        incus.zeroDeviceUpdateMetadata;
      incus.mkEvent "t1" "device" incus.zeroConfigUpdateMetadata
        (incus.mkDeviceUpdateMetadata "eth0" "added" (incus.mkDeviceConfig "nic" "/dev/net")) ]
  /\ length (guest.callbacks run) = 2%nat
  /\ guest.returned run = Some None.
Proof.
  apply (cancellation_returns_success sample.JoinPath sample.Parse sample.URL_String
           _ _ _ _ "ws://1.0/1.0/events?type=config"
           [ Wellformed (sample.configMessage "t0" "user.a" "1" "2");
             Wellformed (sample.deviceMessage "t1" "eth0" "added" "nic" "/dev/net") ]
           [ inr (Wellformed (sample.configMessage "t2" "user.a" "2" "3")) ]).
  - reflexivity.
  - reflexivity.
  - repeat constructor.
  - intros i Hi. apply Nat.leb_gt. cbn in Hi. lia.
  - reflexivity.
Defined.

Lemma failure_ends_subscription_witness :
  (let run :=
     guest.ListenForEvents sample.JoinPath sample.Parse sample.URL_String
       (sample.Dial
          [ inr (Wellformed (sample.configMessage "t0" "user.a" "1" "2"));
            inl (errorString "EOF");
            inr (Wellformed (sample.configMessage "t2" "user.a" "2" "3")) ])
       (sample.client (http.mkResponse 200 (inr ""))) (sample.cancelledAfter 7) [] in
   guest.callbacks run =
     [ incus.mkEvent "t0" "config" (incus.mkConfigUpdateMetadata "user.a" "1" "2")
         incus.zeroDeviceUpdateMetadata ]
   /\ length (guest.callbacks run) = 1%nat
   /\ guest.returned run = Some (Some (wrapError "error in reader: EOF" (errorString "EOF"))))
  /\
  (let run :=
     guest.ListenForEvents sample.JoinPath sample.Parse sample.URL_String
       (sample.Dial
          [ inr (Wellformed (sample.configMessage "t0" "user.a" "1" "2"));
            inr (Wellformed (JObject [ ("type", JString "config") ]));
            inr (Wellformed (sample.configMessage "t2" "user.a" "2" "3")) ])
       (sample.client (http.mkResponse 200 (inr ""))) (sample.cancelledAfter 7) [] in
   guest.callbacks run =
     [ incus.mkEvent "t0" "config" (incus.mkConfigUpdateMetadata "user.a" "1" "2")
         incus.zeroDeviceUpdateMetadata ]
   /\ length (guest.callbacks run) = 1%nat
   /\ guest.returned run =
        Some (Some (wrapError "error in json unmarshaller: unexpected end of JSON input"
                      unexpectedEnd))).
Proof.
  split.
  - refine (proj1 (failure_ends_subscription sample.JoinPath sample.Parse
             sample.URL_String
             (sample.Dial
                [ inr (Wellformed (sample.configMessage "t0" "user.a" "1" "2"));
                  inl (errorString "EOF");
                  inr (Wellformed (sample.configMessage "t2" "user.a" "2" "3")) ])
             (sample.client (http.mkResponse 200 (inr ""))) (sample.cancelledAfter 7) []
             "ws://1.0/1.0/events"
             [ Wellformed (sample.configMessage "t0" "user.a" "1" "2") ]
             (inl (errorString "EOF"))
             [ inr (Wellformed (sample.configMessage "t2" "user.a" "2" "3")) ]
             _ eq_refl eq_refl _ _) (errorString "EOF") eq_refl).
    + repeat constructor.
    + intros i Hi. apply Nat.leb_gt. cbn in Hi. lia.
  - refine (proj2 (failure_ends_subscription sample.JoinPath sample.Parse
             sample.URL_String
             (sample.Dial
                [ inr (Wellformed (sample.configMessage "t0" "user.a" "1" "2"));
                  inr (Wellformed (JObject [ ("type", JString "config") ]));
                  inr (Wellformed (sample.configMessage "t2" "user.a" "2" "3")) ])
             (sample.client (http.mkResponse 200 (inr ""))) (sample.cancelledAfter 7) []
             "ws://1.0/1.0/events"
             [ Wellformed (sample.configMessage "t0" "user.a" "1" "2") ]
             (inr (Wellformed (JObject [ ("type", JString "config") ])))
             [ inr (Wellformed (sample.configMessage "t2" "user.a" "2" "3")) ]
             _ eq_refl eq_refl _ _) _ unexpectedEnd eq_refl eq_refl).
    + repeat constructor.
    + intros i Hi. apply Nat.leb_gt. cbn in Hi. lia.
Defined.

(** * Further properties of the code *)

Local Open Scope string_scope.

(** ** The envelope decoder on other inputs *)

(** X1: a message that is not a JSON object (malformed bytes, [null], a
    boolean, a number, a string, an array) never decodes: [UnmarshalJSON]
    returns an error and leaves the receiver as it was. *)
Theorem UnmarshalJSON_not_object :
  forall (e : incus.Event) (data : json.data),
    (forall members, data <> Wellformed (JObject members)) ->
    is_Some (incus.UnmarshalJSON e data).2 /\ (incus.UnmarshalJSON e data).1 = e.
Proof.
  intros e data Hnot.
  destruct data as [err|v]; [cbn; eauto|].
  destruct v; try (cbn; eauto; fail).
  - destruct e. cbn. eauto.
  - now destruct (Hnot members).
Qed.

Lemma UnmarshalJSON_not_object_witness :
  is_Some (incus.UnmarshalJSON incus.zeroEvent (Wellformed (JArray [JString "config"]))).2 /\
  (incus.UnmarshalJSON incus.zeroEvent (Wellformed (JArray [JString "config"]))).1 =
    incus.zeroEvent.
Proof. apply UnmarshalJSON_not_object. intros members. discriminate. Defined.

Lemma UnmarshalJSON_other_payload (e : incus.Event) (data : json.data) :
  (incus.Type_ (incus.UnmarshalJSON e data).1 <> "config" ->
     incus.Config (incus.UnmarshalJSON e data).1 = incus.Config e) /\
  (incus.Type_ (incus.UnmarshalJSON e data).1 <> "device" ->
     incus.Device (incus.UnmarshalJSON e data).1 = incus.Device e).
Proof.
  unfold incus.UnmarshalJSON, Unmarshal, index.
  destruct data as [err|v]; [cbn; auto|].
  destruct (storeRawMap v ∅) as [intermediary [err|]]; [cbn; auto|].
  destruct (intermediary !! "timestamp") as [tsv|]; [|cbn; auto].
  destruct (storeString "string" tsv (incus.Timestamp e)) as [ts [err|]]; [cbn; auto|].
  cbn [incus.Timestamp incus.Type_ incus.Config incus.Device].
  destruct (intermediary !! "type") as [tyv|]; [|cbn; auto].
  destruct (storeString "incus.EventType" tyv (incus.Type_ e)) as [ty [err|]]; [cbn; auto|].
  cbn [incus.Timestamp incus.Type_ incus.Config incus.Device].
  destruct (String.eqb_spec ty "config") as [->|Hc].
  - destruct (intermediary !! "metadata") as [meta|]; [|cbn; auto].
    destruct (incus.storeConfigUpdateMetadata meta (incus.Config e)) as [c err].
    cbn. split; [congruence | auto].
  - destruct (String.eqb_spec ty "device") as [->|Hd]; [|cbn; auto].
    destruct (intermediary !! "metadata") as [meta|]; [|cbn; auto].
    destruct (incus.storeDeviceUpdateMetadata meta (incus.Device e)) as [d err].
    cbn. split; [auto | congruence].
Qed.

(** X2: whatever the receiver and the message, [UnmarshalJSON] touches at
    most the payload its resulting type selects: the config payload is
    changed only when the event's type ends up [config], the device payload
    only when it ends up [device]. *)
Theorem UnmarshalJSON_payload_isolation :
  forall (e : incus.Event) (data : json.data),
    let e' := (incus.UnmarshalJSON e data).1 in
    (incus.Type_ e' <> "config" -> incus.Config e' = incus.Config e) /\
    (incus.Type_ e' <> "device" -> incus.Device e' = incus.Device e).
Proof. intros e data. exact (UnmarshalJSON_other_payload e data). Qed.

(** X3: for a known type, a [metadata] member that is [null] is taken like
    a missing one (no error, payloads untouched), and one that is neither
    an object nor [null] is a type error, returned after the timestamp and
    the type were stored. *)
Theorem UnmarshalJSON_metadata_kind :
  forall (e : incus.Event) (members : list (string * value)) (ts ty : string)
         (meta : value),
    insertMembers members ∅ !! "timestamp" = Some (JString ts) ->
    insertMembers members ∅ !! "type" = Some (JString ty) ->
    incus.Valid ty = true ->
    insertMembers members ∅ !! "metadata" = Some meta ->
    (meta = JNull ->
       incus.UnmarshalJSON e (Wellformed (JObject members)) =
         (incus.mkEvent ts ty (incus.Config e) (incus.Device e), None)) /\
    ((forall fields, meta <> JObject fields) -> meta <> JNull ->
       exists gotype,
         incus.UnmarshalJSON e (Wellformed (JObject members)) =
           (incus.mkEvent ts ty (incus.Config e) (incus.Device e),
            Some (UnmarshalTypeError (kind meta) gotype))).
Proof.
  intros e members ts ty meta Hts Hty Hvalid Hmeta.
  rewrite (UnmarshalJSON_strings e members ts ty Hts Hty). cbn zeta. rewrite Hmeta.
  assert (ty = "config" \/ ty = "device") as Hknown.
  { unfold incus.Valid, incus.EventTypeConfig, incus.EventTypeDevice in Hvalid.
    destruct (String.eqb_spec ty "config"), (String.eqb_spec ty "device");
      auto; discriminate. }
  split.
  - intros ->. destruct Hknown as [-> | ->]; reflexivity.
  - intros Hobj Hnull.
    destruct Hknown as [-> | ->]; cbn;
      (destruct meta; [congruence | | | | |now destruct (Hobj members0)]);
      cbn; eauto.
Qed.

Lemma UnmarshalJSON_metadata_kind_witness :
  incus.UnmarshalJSON incus.zeroEvent
    (Wellformed
       (JObject [ ("timestamp", JString "t"); ("type", JString "device");
                  ("metadata", JNull) ])) =
    (incus.mkEvent "t" "device" incus.zeroConfigUpdateMetadata
       incus.zeroDeviceUpdateMetadata, None)
  /\
  exists gotype,
    incus.UnmarshalJSON incus.zeroEvent
      (Wellformed
         (JObject [ ("timestamp", JString "t"); ("type", JString "config");
                    ("metadata", JString "key=value") ])) =
      (incus.mkEvent "t" "config" incus.zeroConfigUpdateMetadata
         incus.zeroDeviceUpdateMetadata,
       Some (UnmarshalTypeError "string" gotype)).
Proof.
  split.
  - apply (UnmarshalJSON_metadata_kind incus.zeroEvent _ "t" "device" JNull);
      reflexivity.
  - apply (UnmarshalJSON_metadata_kind incus.zeroEvent _ "t" "config"
             (JString "key=value")); try reflexivity; discriminate.
Defined.

(** ** Order and repetition of the envelope's members *)

Lemma insertMembers_app (l1 l2 : list (string * value)) (m : gmap string value) :
  insertMembers (l1 ++ l2)%list m = insertMembers l2 (insertMembers l1 m).
Proof. apply foldl_app. Qed.

Lemma insertMembers_rearranged (l1 l2 : list (string * value)) :
  l1 ≡ₚ l2 -> NoDup l1.*1 ->
  forall m : gmap string value, insertMembers l1 m = insertMembers l2 m.
Proof.
  induction 1 as [|x l1 l2 Hperm IH|x y l|l1 l2 l3 H12 IH12 H23 IH23];
    intros Hnd m.
  - reflexivity.
  - cbn. apply IH. now inversion Hnd.
  - cbn. f_equal. apply insert_insert_ne.
    rewrite !fmap_cons in Hnd. apply NoDup_cons in Hnd as [Hnot _].
    intros Heq. apply Hnot. rewrite Heq. set_solver.
  - rewrite IH12 by exact Hnd. apply IH23. now rewrite <- H12.
Qed.

Lemma insertMembers_overwritten (l : list (string * value)) (k : string) (v : value) :
  k ∈ l.*1 ->
  forall m : gmap string value, insertMembers l (<[k:=v]> m) = insertMembers l m.
Proof.
  induction l as [|[k' v'] l IH]; intros Hin m.
  - now apply elem_of_nil in Hin.
  - cbn. destruct (decide (k' = k)) as [->|Hne].
    + now rewrite insert_insert_eq.
    + rewrite insert_insert_ne by exact Hne. apply IH.
      rewrite fmap_cons in Hin. apply elem_of_cons in Hin as [Heq|Hin]; [|exact Hin].
      cbn in Heq. congruence.
Qed.

(** The decoder reads the envelope through the map of its members only. *)
Lemma UnmarshalJSON_same_map (e : incus.Event) (l1 l2 : list (string * value)) :
  insertMembers l1 ∅ = insertMembers l2 ∅ ->
  incus.UnmarshalJSON e (Wellformed (JObject l1)) =
    incus.UnmarshalJSON e (Wellformed (JObject l2)).
Proof.
  intros Hsame. unfold incus.UnmarshalJSON. cbn [Unmarshal storeRawMap].
  now rewrite Hsame.
Qed.

(** X4: the order of the envelope's members does not matter: two objects
    with the same members, each name occurring once, decode to the same
    event and error, into any receiver. *)
Theorem UnmarshalJSON_member_order :
  forall (e : incus.Event) (l1 l2 : list (string * value)),
    l1 ≡ₚ l2 -> NoDup l1.*1 ->
    incus.UnmarshalJSON e (Wellformed (JObject l1)) =
      incus.UnmarshalJSON e (Wellformed (JObject l2)).
Proof.
  intros e l1 l2 Hperm Hnd.
  apply UnmarshalJSON_same_map, insertMembers_rearranged; assumption.
Qed.

Lemma UnmarshalJSON_member_order_witness :
  incus.UnmarshalJSON incus.zeroEvent
    (Wellformed (JObject [ ("timestamp", JString "t"); ("type", JString "config") ])) =
  incus.UnmarshalJSON incus.zeroEvent
    (Wellformed (JObject [ ("type", JString "config"); ("timestamp", JString "t") ])).
Proof.
  apply UnmarshalJSON_member_order.
  - apply perm_swap.
  - apply (bool_decide_unpack _). reflexivity.
Defined.

(** X5: of a member name that occurs more than once in the envelope only
    the last occurrence counts: an occurrence followed by another one of
    the same name can be removed without changing the result. *)
Theorem UnmarshalJSON_repeated_member :
  forall (e : incus.Event) (l1 l2 : list (string * value)) (k : string) (v : value),
    k ∈ l2.*1 ->
    incus.UnmarshalJSON e (Wellformed (JObject (l1 ++ (k, v) :: l2)%list)) =
      incus.UnmarshalJSON e (Wellformed (JObject (l1 ++ l2)%list)).
Proof.
  intros e l1 l2 k v Hin. apply UnmarshalJSON_same_map.
  rewrite !insertMembers_app. cbn.
  now apply insertMembers_overwritten.
Qed.

Lemma UnmarshalJSON_repeated_member_witness :
  incus.UnmarshalJSON incus.zeroEvent
    (Wellformed
       (JObject [ ("timestamp", JString "t"); ("type", JNumber "1");
                  ("type", JString "config") ])) =
  incus.UnmarshalJSON incus.zeroEvent
    (Wellformed (JObject [ ("timestamp", JString "t"); ("type", JString "config") ])).
Proof.
  apply (UnmarshalJSON_repeated_member incus.zeroEvent [ ("timestamp", JString "t") ]
           [ ("type", JString "config") ] "type" (JNumber "1")).
  cbn. set_solver.
Defined.

(** ** The members of a payload *)

Lemma findField_elem {S : Type} (fields : list (field S)) (k : string) (f : field S) :
  findField fields k = Some f ->
  f ∈ fields /\ foldName (name f) = foldName k.
Proof.
  unfold findField.
  destruct (List.find (fun f => String.eqb (name f) k) fields) as [f'|] eqn:Hexact.
  - intros [= ->]. apply List.find_some in Hexact as [Hin Heq].
    apply String.eqb_eq in Heq. split; [now apply list_elem_of_In | now rewrite Heq].
  - intros Hfold. apply List.find_some in Hfold as [Hin Heq].
    apply String.eqb_eq in Heq. split; [now apply list_elem_of_In | exact Heq].
Qed.

Lemma findField_None {S : Type} (fields : list (field S)) (k : string) :
  (forall f, f ∈ fields -> foldName (name f) <> foldName k) ->
  findField fields k = None.
Proof.
  intros Hnone. destruct (findField fields k) as [f|] eqn:Hf; [|reflexivity].
  apply findField_elem in Hf as [Hin Heq]. now destruct (Hnone f Hin).
Qed.

(** A member that selects no field is skipped. *)
Lemma object_skip {S : Type} (fields : list (field S)) (l1 l2 : list (string * value))
    (k : string) (v : value) (target : S) :
  findField fields k = None ->
  object fields (l1 ++ (k, v) :: l2)%list target = object fields (l1 ++ l2)%list target.
Proof.
  intros Hnone. unfold object. rewrite !foldl_app. cbn [foldl fst snd].
  now rewrite Hnone.
Qed.

(** When every field is a string field, decoding an object fails exactly
    when a member that selects a field holds neither a string nor
    [null]. *)
Lemma object_error_iff {S : Type} (fields : list (field S)) :
  (forall f v s, f ∈ fields -> (store f v s).2 = None <-> stringOrNull v = true) ->
  forall (members : list (string * value)) (acc : S * option error),
    (foldl
       (fun (acc : S * option error) (kv : string * value) =>
          match findField fields kv.1 with
          | None => acc
          | Some f => let '(t, err) := store f kv.2 acc.1 in (t, saveError acc.2 err)
          end) acc members).2 = None
    <-> acc.2 = None /\
        Forall (fun kv => findField fields kv.1 = None \/ stringOrNull kv.2 = true) members.
Proof.
  intros Hfields. induction members as [|[k v] members IH]; intros acc.
  - cbn. split; [auto | tauto].
  - cbn [foldl fst snd]. rewrite IH, Forall_cons. cbn [fst snd].
    destruct (findField fields k) as [f|] eqn:Hf.
    + apply findField_elem in Hf as [Hin _].
      specialize (Hfields f v acc.1 Hin).
      destruct (store f v acc.1) as [t err]. cbn in *.
      destruct acc as [s [saved|]]; cbn.
      * split; [intros [[=] _] | intros [[=] _]].
      * rewrite Hfields. split; [intros [He Hall] | intros [_ [[[=]|He] Hall]]]; auto.
    + tauto.
Qed.

Lemma stringField_error_iff {S : Type} (jsonName : string) (get : S -> string)
    (set : string -> S -> S) (v : value) (s : S) :
  (store (incus.stringField jsonName get set) v s).2 = None <-> stringOrNull v = true.
Proof. destruct v; cbn; split; congruence. Qed.

(** X6: decoding a [metadata] object into the config payload fails exactly
    when one of its members that names a field ([key], [old_value],
    [value], in any case) holds something other than a string or [null];
    no member is required, and members naming no field never matter. *)
Theorem storeConfigUpdateMetadata_error_iff :
  forall (meta : list (string * value)) (target : incus.ConfigUpdateMetadata),
    (incus.storeConfigUpdateMetadata (JObject meta) target).2 = None
    <-> Forall (fun kv =>
                  findField incus.ConfigUpdateMetadata_fields kv.1 = None \/
                  stringOrNull kv.2 = true) meta.
Proof.
  intros meta target. unfold incus.storeConfigUpdateMetadata, storeStruct, object.
  rewrite object_error_iff.
  - cbn. tauto.
  - intros f v s Hin. unfold incus.ConfigUpdateMetadata_fields in Hin.
    repeat (apply elem_of_cons in Hin as [-> | Hin]);
      [apply stringField_error_iff .. | now apply elem_of_nil in Hin].
Qed.

(** X7: a member of a [metadata] object whose name matches none of the
    payload's field names, also when case is ignored, is skipped: with or
    without it the config payload, the device payload and the error are
    the same. *)
Theorem metadata_unknown_member_skipped :
  forall (l1 l2 : list (string * value)) (k : string) (v : value),
    (foldName k ∉ ["KEY"; "OLD_VALUE"; "VALUE"] ->
     forall target,
       incus.storeConfigUpdateMetadata (JObject (l1 ++ (k, v) :: l2)%list) target =
         incus.storeConfigUpdateMetadata (JObject (l1 ++ l2)%list) target) /\
    (foldName k ∉ ["NAME"; "ACTION"; "CONFIG"] ->
     forall target,
       incus.storeDeviceUpdateMetadata (JObject (l1 ++ (k, v) :: l2)%list) target =
         incus.storeDeviceUpdateMetadata (JObject (l1 ++ l2)%list) target).
Proof.
  intros l1 l2 k v. split; intros Hnot target.
  - unfold incus.storeConfigUpdateMetadata, storeStruct. apply object_skip.
    apply findField_None. intros f Hin Heq. apply Hnot. rewrite <- Heq.
    unfold incus.ConfigUpdateMetadata_fields in Hin.
    repeat (apply elem_of_cons in Hin as [-> | Hin]); cbn; [set_solver ..|].
    now apply elem_of_nil in Hin.
  - unfold incus.storeDeviceUpdateMetadata, storeStruct. apply object_skip.
    apply findField_None. intros f Hin Heq. apply Hnot. rewrite <- Heq.
    unfold incus.DeviceUpdateMetadata_fields in Hin.
    repeat (apply elem_of_cons in Hin as [-> | Hin]); cbn; [set_solver ..|].
    now apply elem_of_nil in Hin.
Qed.

Lemma metadata_unknown_member_skipped_witness :
  incus.storeConfigUpdateMetadata
    (JObject [ ("key", JString "user.a"); ("source", JNumber "7"); ("value", JString "2") ])
    incus.zeroConfigUpdateMetadata =
  incus.storeConfigUpdateMetadata
    (JObject [ ("key", JString "user.a"); ("value", JString "2") ])
    incus.zeroConfigUpdateMetadata
  /\
  incus.storeDeviceUpdateMetadata
    (JObject [ ("name", JString "eth0"); ("hwaddr", JString "00:16:3e") ])
    incus.zeroDeviceUpdateMetadata =
  incus.storeDeviceUpdateMetadata (JObject [ ("name", JString "eth0") ])
    incus.zeroDeviceUpdateMetadata.
Proof.
  split.
  - apply (proj1 (metadata_unknown_member_skipped [ ("key", JString "user.a") ]
                    [ ("value", JString "2") ] "source" (JNumber "7"))).
    apply (bool_decide_unpack _). reflexivity.
  - apply (proj2 (metadata_unknown_member_skipped [ ("name", JString "eth0") ] []
                    "hwaddr" (JString "00:16:3e"))).
    apply (bool_decide_unpack _). reflexivity.
Defined.

Lemma findField_key (k : string) :
  foldName k = "KEY" ->
  findField incus.ConfigUpdateMetadata_fields k =
    Some (incus.stringField "key" incus.Key
            (fun x s => incus.mkConfigUpdateMetadata x (incus.OldValue s) (incus.Value s))).
Proof.
  intros Hk. unfold findField, incus.ConfigUpdateMetadata_fields.
  cbn [List.find name incus.stringField].
  destruct (String.eqb_spec "key" k) as [_|_]; [reflexivity|].
  destruct (String.eqb_spec "old_value" k) as [<-|_]; [discriminate Hk|].
  destruct (String.eqb_spec "value" k) as [<-|_]; [discriminate Hk|].
  rewrite Hk. reflexivity.
Qed.

(** X8: the names of a payload's members are matched without regard to
    case: a last member whose name is [key] in any mix of cases, holding a
    string, sets the event's key to it, whatever the members before it set;
    the other fields and the error are those of the members before it. *)
Theorem metadata_name_ignores_case :
  forall (meta : list (string * value)) (k x : string)
         (target : incus.ConfigUpdateMetadata),
    foldName k = "KEY" ->
    incus.storeConfigUpdateMetadata (JObject (meta ++ [(k, JString x)])%list) target =
      let '(c, err) := incus.storeConfigUpdateMetadata (JObject meta) target in
      (incus.mkConfigUpdateMetadata x (incus.OldValue c) (incus.Value c), err).
Proof.
  intros meta k x target Hk.
  unfold incus.storeConfigUpdateMetadata, storeStruct, object.
  rewrite foldl_app. cbn [foldl fst snd]. rewrite (findField_key k Hk).
  match goal with |- context [foldl ?f ?a meta] => destruct (foldl f a meta) as [c err] end.
  cbn. now destruct err.
Qed.

Lemma metadata_name_ignores_case_witness :
  incus.storeConfigUpdateMetadata
    (JObject [ ("key", JString "user.a"); ("Value", JString "2"); ("KEY", JString "user.b") ])
    incus.zeroConfigUpdateMetadata =
    (incus.mkConfigUpdateMetadata "user.b" "" "2", None).
Proof.
  apply (metadata_name_ignores_case
           [ ("key", JString "user.a"); ("Value", JString "2") ] "KEY" "user.b"
           incus.zeroConfigUpdateMetadata).
  reflexivity.
Defined.

(** ** What a subscription can do *)

Local Open Scope list_scope.

Lemma listened_here (ctx : context.Context) (polls : nat) (conn : websocket.Conn)
    (ret : option (option error)) :
  match ret with
  | Some None => ctx polls = true
  | None => conn = [] /\ ctx polls = false
  | Some (Some err) =>
      ctx polls = false /\
      exists cause,
        (exists rest, conn = inl cause :: rest /\
                      err = fmt.Errorf_w "error in reader: " cause) \/
        (exists message rest,
           conn = inr message :: rest /\
           (guest.Decode message incus.zeroEvent).2 = Some cause /\
           err = fmt.Errorf_w "error in json unmarshaller: " cause)
  end ->
  listened ctx polls conn [] ret.
Proof.
  intros Hret. apply (Listened _ _ _ _ _ [] conn).
  - reflexivity.
  - constructor.
  - cbn. intros i Hi. lia.
  - cbn [length]. now rewrite Nat.add_0_r.
Qed.

Lemma listen_listened (ctx : context.Context) (conn : websocket.Conn) :
  forall (polls : nat) (started : list incus.Event),
    exists evs,
      (guest.listen ctx polls conn started).1 = started ++ evs /\
      listened ctx polls conn evs (guest.listen ctx polls conn started).2.
Proof.
  induction conn as [|next conn IH]; intros polls started.
  - exists []. cbn. rewrite app_nil_r.
    destruct (ctx polls) eqn:Hctx; cbn; (split; [reflexivity|]);
      apply listened_here; auto.
  - cbn [guest.listen]. destruct (ctx polls) eqn:Hctx.
    { exists []. cbn. rewrite app_nil_r. split; [reflexivity|].
      now apply listened_here. }
    destruct next as [cause|message].
    { exists []. cbn. rewrite app_nil_r. split; [reflexivity|].
      apply listened_here. split; [exact Hctx|]. exists cause. left. eauto. }
    destruct (guest.Decode message incus.zeroEvent) as [ev [cause|]] eqn:Hdec.
    { exists []. cbn. rewrite app_nil_r. split; [reflexivity|].
      apply listened_here. split; [exact Hctx|]. exists cause. right.
      exists message, conn. now rewrite Hdec. }
    destruct (IH (S polls) (started ++ [ev])) as (evs & Hevs & [handled unread Hc He Ho Hr]).
    exists (ev :: evs). split; [now rewrite Hevs, <- app_assoc|].
    apply (Listened _ _ _ _ _ (message :: handled) unread).
    + cbn. now rewrite Hc.
    + constructor; [exact Hdec | exact He].
    + intros [|i] Hi; [now rewrite Nat.add_0_r|].
      replace (polls + S i)%nat with (S polls + i)%nat by lia. apply Ho. cbn in Hi. lia.
    + cbn [length]. replace (polls + S (length handled))%nat
        with (S polls + length handled)%nat by lia. exact Hr.
Qed.

Section Subscribed.

Variable JoinPath : string -> list string -> error + string.
Variable Parse : string -> error + url.URL.
Variable URL_String : url.URL -> string.
Variable Dial : context.Context -> string -> http.Client -> error + websocket.Conn.

Lemma ListenForEvents_listened (g : guest.GuestClient) (ctx : context.Context)
    (events : list incus.EventType) (endpoint : string) (conn : websocket.Conn) :
  guest.dialed (guest.ListenForEvents JoinPath Parse URL_String Dial g ctx events) =
    Some endpoint ->
  Dial ctx endpoint (guest.c g) = inr conn ->
  listened ctx 0 conn
    (guest.callbacks (guest.ListenForEvents JoinPath Parse URL_String Dial g ctx events))
    (guest.returned (guest.ListenForEvents JoinPath Parse URL_String Dial g ctx events)).
Proof.
  intros Hdial Hconn.
  pose proof (ListenForEvents_connected JoinPath Parse URL_String Dial g ctx events
                endpoint conn Hdial Hconn) as Hrun.
  destruct (listen_listened ctx conn 0 []) as (evs & Hevs & Hl).
  rewrite <- Hrun in Hevs, Hl. cbn in Hevs, Hl. now rewrite Hevs.
Qed.

(** X9: the callback is only ever started on decoded messages of the
    connection, once each and in their order: on an open connection the
    events handed to the callback are the decodings of the messages of a
    prefix of what the connection delivers. *)
Theorem callbacks_follow_connection :
  forall (g : guest.GuestClient) (ctx : context.Context) (events : list incus.EventType)
         (endpoint : string) (conn : websocket.Conn),
    let run := guest.ListenForEvents JoinPath Parse URL_String Dial g ctx events in
    guest.dialed run = Some endpoint ->
    Dial ctx endpoint (guest.c g) = inr conn ->
    exists msgs rest,
      conn = (inr <$> msgs) ++ rest /\
      Forall2 guest.decodesTo msgs (guest.callbacks run) /\
      (length (guest.callbacks run) <= length conn)%nat.
Proof.
  intros g ctx events endpoint conn run Hdial Hconn.
  destruct (ListenForEvents_listened g ctx events endpoint conn Hdial Hconn)
    as [handled unread Hc He _ _].
  fold run in He.
  exists handled, unread. repeat split; [exact Hc | exact He |].
  rewrite <- (Forall2_length _ _ _ He), Hc, length_app, length_fmap. lia.
Qed.

(** X10: the call returns no error only on cancellation: when it returns
    nil on an open connection, the context was found cancelled at the
    select that followed the last callback. *)
Theorem success_means_cancelled :
  forall (g : guest.GuestClient) (ctx : context.Context) (events : list incus.EventType)
         (endpoint : string) (conn : websocket.Conn),
    let run := guest.ListenForEvents JoinPath Parse URL_String Dial g ctx events in
    guest.dialed run = Some endpoint ->
    Dial ctx endpoint (guest.c g) = inr conn ->
    guest.returned run = Some None ->
    ctx (length (guest.callbacks run)) = true /\
    forall i, (i < length (guest.callbacks run))%nat -> ctx i = false.
Proof.
  intros g ctx events endpoint conn run Hdial Hconn Hret.
  destruct (ListenForEvents_listened g ctx events endpoint conn Hdial Hconn)
    as [handled unread Hc He Ho Hr].
  fold run in He, Hr. rewrite Hret in Hr. cbn in Hr.
  rewrite <- (Forall2_length _ _ _ He). split; [exact Hr | exact Ho].
Qed.

(** X11: an error returned once the connection is open always wraps its
    cause: it is [error in reader: ...] around the error of a failed read,
    or [error in json unmarshaller: ...] around the error of decoding the
    message that followed the last callback, and [errors.Is] finds the
    cause in it. *)
Theorem loop_error_wraps_cause :
  forall (g : guest.GuestClient) (ctx : context.Context) (events : list incus.EventType)
         (endpoint : string) (conn : websocket.Conn) (err : error),
    let run := guest.ListenForEvents JoinPath Parse URL_String Dial g ctx events in
    guest.dialed run = Some endpoint ->
    Dial ctx endpoint (guest.c g) = inr conn ->
    guest.returned run = Some (Some err) ->
    exists cause,
      errors.Unwrap err = Some cause /\
      errors.Is err cause = true /\
      ((conn !! length (guest.callbacks run) = Some (inl cause) /\
        errors.Error err = "error in reader: " +:+ errors.Error cause) \/
       (exists message,
          conn !! length (guest.callbacks run) = Some (inr message) /\
          (guest.Decode message incus.zeroEvent).2 = Some cause /\
          errors.Error err = "error in json unmarshaller: " +:+ errors.Error cause)).
Proof.
  intros g ctx events endpoint conn err run Hdial Hconn Hret.
  destruct (ListenForEvents_listened g ctx events endpoint conn Hdial Hconn)
    as [handled unread Hc He Ho Hr].
  fold run in He, Hr. rewrite Hret in Hr. cbn in Hr.
  destruct Hr as [_ (cause & Hcause)].
  assert (forall next rest, unread = next :: rest ->
            conn !! length (guest.callbacks run) = Some next) as Hnext.
  { intros next rest ->. rewrite Hc, <- (Forall2_length _ _ _ He).
    unfold websocket.Conn.
    rewrite lookup_app_r by (rewrite length_fmap; lia).
    now rewrite length_fmap, Nat.sub_diag. }
  assert (forall prefix, errors.Is (fmt.Errorf_w prefix cause) cause = true) as HIs.
  { intros prefix. cbn. apply orb_true_iff. right.
    destruct cause; cbn; now rewrite bool_decide_eq_true_2. }
  exists cause.
  destruct Hcause as [(rest & Hu & ->) | (message & rest & Hu & Hd & ->)].
  - split; [reflexivity|]. split; [apply HIs|]. left. split; [eapply Hnext, Hu | reflexivity].
  - split; [reflexivity|]. split; [apply HIs|]. right. exists message.
    split; [eapply Hnext, Hu|]. split; [exact Hd | reflexivity].
Qed.

(** X12: the call stays blocked in a read exactly when everything the
    connection delivered was a message that decoded and the context was
    open at every select; the callback was then started once per
    message. *)
Theorem blocked_iff_all_handled :
  forall (g : guest.GuestClient) (ctx : context.Context) (events : list incus.EventType)
         (endpoint : string) (conn : websocket.Conn),
    let run := guest.ListenForEvents JoinPath Parse URL_String Dial g ctx events in
    guest.dialed run = Some endpoint ->
    Dial ctx endpoint (guest.c g) = inr conn ->
    (guest.returned run = None <->
     (exists msgs evs, conn = inr <$> msgs /\ Forall2 guest.decodesTo msgs evs) /\
     (forall i, (i <= length conn)%nat -> ctx i = false)) /\
    (guest.returned run = None -> length (guest.callbacks run) = length conn).
Proof.
  intros g ctx events endpoint conn run Hdial Hconn.
  assert (guest.returned run = None ->
          (exists msgs evs, conn = inr <$> msgs /\ Forall2 guest.decodesTo msgs evs) /\
          (forall i, (i <= length conn)%nat -> ctx i = false) /\
          length (guest.callbacks run) = length conn) as Hfwd.
  { intros Hret.
    destruct (ListenForEvents_listened g ctx events endpoint conn Hdial Hconn)
      as [handled unread Hc He Ho Hr].
    fold run in He, Hr. rewrite Hret in Hr. destruct Hr as [-> Hlast].
    rewrite app_nil_r in Hc. split; [eauto|]. rewrite Hc, length_fmap. split.
    - intros i Hi. destruct (decide (i = length handled)) as [->|Hne];
        [exact Hlast | apply Ho; lia].
    - symmetry. eapply Forall2_length, He. }
  split; [split|].
  - intros Hret. destruct (Hfwd Hret) as (Hmsgs & Hopen & _). now split.
  - intros [(msgs & evs & -> & Hdec) Hopen].
    pose proof (ListenForEvents_connected JoinPath Parse URL_String Dial g ctx events
                  endpoint _ Hdial Hconn) as Hrun.
    fold run in Hrun.
    rewrite <- (app_nil_r (inr <$> msgs)) in Hrun.
    rewrite (listen_messages ctx msgs evs Hdec 0 [] []) in Hrun.
    + cbn in Hrun. rewrite (Hopen (length msgs)) in Hrun
        by (rewrite length_fmap; lia).
      now injection Hrun.
    + intros i Hi. apply Hopen. rewrite length_fmap. cbn. lia.
  - intros Hret. apply (Hfwd Hret).
Qed.

End Subscribed.

Section Setup.

Variable JoinPath : string -> list string -> error + string.
Variable Parse : string -> error + url.URL.
Variable URL_String : url.URL -> string.
Variable Dial : context.Context -> string -> http.Client -> error + websocket.Conn.

(** X13: the requested types only shape the endpoint that is dialled; the
    loop does not look at them. Two calls that differ in the requested
    types and get the same connection start the callback on the same
    events, of whatever type, and return the same. *)
Theorem requested_types_do_not_filter :
  forall (g : guest.GuestClient) (ctx : context.Context)
         (events1 events2 : list incus.EventType) (endpoint1 endpoint2 : string)
         (conn : websocket.Conn),
    let run1 := guest.ListenForEvents JoinPath Parse URL_String Dial g ctx events1 in
    let run2 := guest.ListenForEvents JoinPath Parse URL_String Dial g ctx events2 in
    guest.dialed run1 = Some endpoint1 ->
    Dial ctx endpoint1 (guest.c g) = inr conn ->
    guest.dialed run2 = Some endpoint2 ->
    Dial ctx endpoint2 (guest.c g) = inr conn ->
    guest.callbacks run1 = guest.callbacks run2 /\
    guest.returned run1 = guest.returned run2.
Proof.
  intros g ctx events1 events2 endpoint1 endpoint2 conn run1 run2 Hd1 Hc1 Hd2 Hc2.
  pose proof (ListenForEvents_connected JoinPath Parse URL_String Dial g ctx events1
                endpoint1 conn Hd1 Hc1) as H1.
  pose proof (ListenForEvents_connected JoinPath Parse URL_String Dial g ctx events2
                endpoint2 conn Hd2 Hc2) as H2.
  fold run1 in H1. fold run2 in H2. rewrite <- H2 in H1. now injection H1.
Qed.

(** X14: when the call cannot open the connection it starts no callback
    and returns an error: [unexpected error: ...] around the cause when
    the endpoint cannot be joined or, with requested types, parsed, in
    which case nothing is dialled; the error of [websocket.Dial] itself,
    not wrapped, when the dial fails. *)
Theorem ListenForEvents_not_connected :
  forall (g : guest.GuestClient) (ctx : context.Context) (events : list incus.EventType)
         (cause : error),
    let run := guest.ListenForEvents JoinPath Parse URL_String Dial g ctx events in
    (JoinPath "ws://" [guest.EventsPath] = inl cause ->
       run = guest.mkListening None []
               (Some (Some (fmt.Errorf_w "unexpected error: " cause)))) /\
    (forall endpoint,
       JoinPath "ws://" [guest.EventsPath] = inr endpoint ->
       events <> [] ->
       Parse endpoint = inl cause ->
       run = guest.mkListening None []
               (Some (Some (fmt.Errorf_w "unexpected error: " cause)))) /\
    (forall endpoint,
       guest.dialed run = Some endpoint ->
       Dial ctx endpoint (guest.c g) = inl cause ->
       run = guest.mkListening (Some endpoint) [] (Some (Some cause))).
Proof.
  intros g ctx events cause run. subst run. unfold guest.ListenForEvents.
  split; [|split].
  - intros ->. reflexivity.
  - intros endpoint -> Hne HP. destruct events as [|ev events]; [congruence|].
    cbn [length Nat.ltb Nat.leb]. now rewrite HP.
  - intros endpoint.
    destruct (JoinPath "ws://" [guest.EventsPath]) as [err|joined]; [discriminate|].
    match goal with
    | |- context [match ?s with inl _ => _ | inr _ => _ end] =>
        destruct s as [err|target]; [discriminate|]
    end.
    destruct (Dial ctx target (guest.c g)) as [err|conn] eqn:HD.
    + intros [= ->] Hfail. congruence.
    + destruct (guest.listen ctx 0 conn []) as [started ret].
      intros [= ->] Hfail. congruence.
Qed.

End Setup.

Lemma callbacks_follow_connection_witness :
  exists msgs rest,
    sample.pingConn = (inr <$> msgs) ++ rest /\
    Forall2 guest.decodesTo msgs
      (guest.callbacks (sample.listenOn sample.pingConn (sample.cancelledAfter 7) [])) /\
    (length (guest.callbacks (sample.listenOn sample.pingConn (sample.cancelledAfter 7) []))
     <= length sample.pingConn)%nat.
Proof.
  exact (callbacks_follow_connection sample.JoinPath sample.Parse sample.URL_String
           (sample.Dial sample.pingConn)
           (sample.client (http.mkResponse 200 (inr ""))) (sample.cancelledAfter 7) []
           "ws://1.0/1.0/events" sample.pingConn eq_refl eq_refl).
Defined.

Lemma success_means_cancelled_witness :
  sample.cancelledAfter 1
    (length (guest.callbacks (sample.listenOn sample.pingConn (sample.cancelledAfter 1) [])))
    = true /\
  forall i,
    (i < length (guest.callbacks
                   (sample.listenOn sample.pingConn (sample.cancelledAfter 1) [])))%nat ->
    sample.cancelledAfter 1 i = false.
Proof.
  exact (success_means_cancelled sample.JoinPath sample.Parse sample.URL_String
           (sample.Dial sample.pingConn)
           (sample.client (http.mkResponse 200 (inr ""))) (sample.cancelledAfter 1) []
           "ws://1.0/1.0/events" sample.pingConn eq_refl eq_refl eq_refl).
Defined.

Lemma loop_error_wraps_cause_witness :
  exists cause,
    errors.Unwrap (wrapError "error in reader: EOF" (errorString "EOF")) = Some cause /\
    errors.Is (wrapError "error in reader: EOF" (errorString "EOF")) cause = true /\
    ((sample.eofConn
        !! length (guest.callbacks
                     (sample.listenOn sample.eofConn (sample.cancelledAfter 7) [])) =
        Some (inl cause) /\
      errors.Error (wrapError "error in reader: EOF" (errorString "EOF")) =
        "error in reader: " +:+ errors.Error cause) \/
     (exists message,
        sample.eofConn
          !! length (guest.callbacks
                       (sample.listenOn sample.eofConn (sample.cancelledAfter 7) [])) =
          Some (inr message) /\
        (guest.Decode message incus.zeroEvent).2 = Some cause /\
        errors.Error (wrapError "error in reader: EOF" (errorString "EOF")) =
          "error in json unmarshaller: " +:+ errors.Error cause)).
Proof.
  exact (loop_error_wraps_cause sample.JoinPath sample.Parse sample.URL_String
           (sample.Dial sample.eofConn)
           (sample.client (http.mkResponse 200 (inr ""))) (sample.cancelledAfter 7) []
           "ws://1.0/1.0/events" sample.eofConn
           (wrapError "error in reader: EOF" (errorString "EOF")) eq_refl eq_refl eq_refl).
Defined.

Lemma blocked_iff_all_handled_witness :
  guest.returned (sample.listenOn sample.configConn (sample.cancelledAfter 7) []) = None /\
  length (guest.callbacks (sample.listenOn sample.configConn (sample.cancelledAfter 7) [])) =
    length sample.configConn.
Proof.
  destruct (blocked_iff_all_handled sample.JoinPath sample.Parse sample.URL_String
              (sample.Dial sample.configConn)
              (sample.client (http.mkResponse 200 (inr ""))) (sample.cancelledAfter 7) []
              "ws://1.0/1.0/events" sample.configConn eq_refl eq_refl) as [Hiff Hlen].
  assert (guest.returned (sample.listenOn sample.configConn (sample.cancelledAfter 7) []) =
          None) as Hblocked.
  { apply Hiff. split.
    - exists [ Wellformed (sample.configMessage "t0" "user.a" "1" "2") ].
      eexists. split; [reflexivity|]. repeat constructor.
    - intros i Hi. apply Nat.leb_gt. cbn in Hi. lia. }
  split; [exact Hblocked | exact (Hlen Hblocked)].
Defined.

Lemma requested_types_do_not_filter_witness :
  guest.callbacks
    (sample.listenOn sample.deviceConn (sample.cancelledAfter 1) [incus.EventTypeConfig]) =
    guest.callbacks (sample.listenOn sample.deviceConn (sample.cancelledAfter 1) [])
  /\
  guest.returned
    (sample.listenOn sample.deviceConn (sample.cancelledAfter 1) [incus.EventTypeConfig]) =
    guest.returned (sample.listenOn sample.deviceConn (sample.cancelledAfter 1) []).
Proof.
  exact (requested_types_do_not_filter sample.JoinPath sample.Parse sample.URL_String
           (sample.Dial sample.deviceConn)
           (sample.client (http.mkResponse 200 (inr ""))) (sample.cancelledAfter 1)
           [incus.EventTypeConfig] []
           "ws://1.0/1.0/events?type=config" "ws://1.0/1.0/events" sample.deviceConn
           eq_refl eq_refl eq_refl eq_refl).
Defined.

Lemma ListenForEvents_not_connected_witness :
  guest.ListenForEvents sample.JoinPath sample.Parse sample.URL_String
    (fun _ _ _ => inl (errorString "connection refused"))
    (sample.client (http.mkResponse 200 (inr ""))) (sample.cancelledAfter 7) [] =
    guest.mkListening (Some "ws://1.0/1.0/events") []
      (Some (Some (errorString "connection refused"))).
Proof.
  apply (ListenForEvents_not_connected sample.JoinPath sample.Parse sample.URL_String
           (fun _ _ _ => inl (errorString "connection refused"))); reflexivity.
Defined.

(** ** More on the one-shot calls *)

Local Open Scope string_scope.

Lemma Is_Errorf_w (prefix : string) (cause : error) :
  errors.Is (fmt.Errorf_w prefix cause) cause = true.
Proof.
  cbn. apply orb_true_iff. right.
  destruct cause; cbn; now rewrite bool_decide_eq_true_2.
Qed.

Lemma storeStringSlice_strings (keys : list string) (target : list string) :
  guest.storeStringSlice (JArray (JString <$> keys)) target = (keys, None).
Proof.
  unfold guest.storeStringSlice.
  enough (forall acc : list string,
    foldl
      (fun (acc : list string * option error) item =>
         let '(x, err) := storeString "string" item "" in
         ((acc.1 ++ [x])%list, saveError acc.2 err))
      (acc, None) (JString <$> keys) = ((acc ++ keys)%list, None)) as H by apply (H []).
  induction keys as [|k keys IH]; intros acc; cbn.
  - now rewrite app_nil_r.
  - rewrite IH. now rewrite <- app_assoc.
Qed.

Section MoreOneShot.

Variable JoinPath : string -> list string -> error + string.
Variable scan : string -> json.data.

(** X15: a key without one of the two prefixes and the same key behind
    ["user."] are the same lookup: [Config] makes the same request and
    returns the same for both, and so does [HasConfig]. *)
Theorem lookup_user_prefix_same_call :
  forall (g : guest.GuestClient) (key : string),
    strings.HasPrefix key "user." = false ->
    strings.HasPrefix key "cloud-init." = false ->
    guest.Config JoinPath g key = guest.Config JoinPath g ("user." ++ key) /\
    guest.HasConfig JoinPath g key = guest.HasConfig JoinPath g ("user." ++ key).
Proof.
  intros g key Huser Hcloud.
  assert (guest.Config_formattedKey ("user." ++ key) = guest.Config_formattedKey key) as HC.
  { rewrite !(proj1 (formattedKey_prefixed _)).
    now rewrite (HasPrefix_app "user." key), Huser, Hcloud. }
  unfold guest.Config, guest.HasConfig.
  rewrite (proj2 (formattedKey_prefixed key)).
  rewrite (proj2 (formattedKey_prefixed ("user." ++ key))).
  now rewrite HC.
Qed.

(** X16: when its own request fails on the socket, every one-shot call
    returns its zero value and an error [socket error: ...] that wraps the
    transport's error: [Info], [ListConfig], [Devices], [Metadata] and
    [Config] when their GET fails, [HasConfig] when its HEAD fails. *)
Theorem one_shot_socket_error :
  forall (g : guest.GuestClient) (elems : list string) (endpoint : string) (cause : error),
    JoinPath "http://" elems = inr endpoint ->
    let failed := fmt.Errorf_w "socket error: " cause in
    errors.Is failed cause = true /\
    (http.Get (guest.c g) endpoint = inl cause ->
       (elems = [guest.InstanceInfoPath] ->
          (guest.Info JoinPath scan g).2 =
            (guest.mkInstanceInfo "" "" "" "", Some failed)) /\
       (elems = [guest.ConfigPath] ->
          (guest.ListConfig JoinPath scan g).2 = ([], Some failed)) /\
       (elems = [guest.ListDevicesPath] ->
          (guest.Devices JoinPath scan g).2 = (∅, Some failed)) /\
       (elems = [guest.MetadataPath] ->
          (guest.Metadata JoinPath g).2 = ("", Some failed)) /\
       (forall key,
          elems = [guest.ConfigPath; guest.Config_formattedKey key] ->
          (guest.Config JoinPath g key).2 = ("", Some failed))) /\
    (http.Head (guest.c g) endpoint = inl cause ->
       forall key,
         elems = [guest.ConfigPath; guest.HasConfig_formattedKey key] ->
         (guest.HasConfig JoinPath g key).2 = (false, Some failed)).
Proof.
  intros g elems endpoint cause HJ failed.
  split; [apply Is_Errorf_w|]. split.
  - intros HG. repeat split; try intros ->.
    + unfold guest.Info, guest.handlejson. now rewrite HJ, HG.
    + unfold guest.ListConfig, guest.handlejson. now rewrite HJ, HG.
    + unfold guest.Devices, guest.handlejson. now rewrite HJ, HG.
    + unfold guest.Metadata. now rewrite HJ, HG.
    + intros key ->. unfold guest.Config. now rewrite HJ, HG.
  - intros HH key ->. unfold guest.HasConfig. now rewrite HJ, HH.
Qed.

(** X17: [handlejson] reads the body before it looks at the status, the
    other calls look at the status first. When reading the body fails,
    [Info], [ListConfig] and [Devices] report [reader error: ...] whatever
    the status, while [Config] and [Metadata] on a status other than 200
    report the status (or, for [Config] on 404, the absent key) and never
    the read failure. *)
Theorem body_read_failure :
  forall (g : guest.GuestClient) (elems : list string) (endpoint : string)
         (resp : http.Response) (cause : error),
    JoinPath "http://" elems = inr endpoint ->
    http.Get (guest.c g) endpoint = inr resp ->
    http.Body resp = inl cause ->
    let unread := fmt.Errorf_w "reader error: " cause in
    (elems = [guest.InstanceInfoPath] ->
       (guest.Info JoinPath scan g).2.2 = Some unread) /\
    (elems = [guest.ConfigPath] ->
       (guest.ListConfig JoinPath scan g).2.2 = Some unread) /\
    (elems = [guest.ListDevicesPath] ->
       (guest.Devices JoinPath scan g).2.2 = Some unread) /\
    (elems = [guest.MetadataPath] ->
       (guest.Metadata JoinPath g).2.2 =
         Some (if (http.StatusCode resp =? 200)%Z then unread
               else fmt.Errorf_w_d guest.UnexpectedStatusCode (http.StatusCode resp))) /\
    (forall key,
       elems = [guest.ConfigPath; guest.Config_formattedKey key] ->
       (guest.Config JoinPath g key).2.2 =
         if (http.StatusCode resp =? 404)%Z then None
         else if (http.StatusCode resp =? 200)%Z then Some unread
         else Some (fmt.Errorf_w_d guest.UnexpectedStatusCode (http.StatusCode resp))).
Proof.
  intros g elems endpoint resp cause HJ HG HB unread.
  repeat split; try intros ->.
  - unfold guest.Info, guest.handlejson. now rewrite HJ, HG, HB.
  - unfold guest.ListConfig, guest.handlejson. now rewrite HJ, HG, HB.
  - unfold guest.Devices, guest.handlejson. now rewrite HJ, HG, HB.
  - unfold guest.Metadata, http.StatusOK. rewrite HJ, HG, HB.
    now destruct (http.StatusCode resp =? 200)%Z.
  - intros key ->. unfold guest.Config, http.StatusOK, http.StatusNotFound.
    rewrite HJ, HG, HB.
    now destruct (http.StatusCode resp =? 404)%Z, (http.StatusCode resp =? 200)%Z.
Qed.

Lemma handlejson_ok {T : Type} (store : value -> T -> T * option error)
    (g : guest.GuestClient) (path endpoint payload : string) (target : T)
    (resp : http.Response) :
  JoinPath "http://" [path] = inr endpoint ->
  http.Get (guest.c g) endpoint = inr resp ->
  http.StatusCode resp = 200%Z ->
  http.Body resp = inr payload ->
  guest.handlejson JoinPath scan store g path target =
    ([http.mkRequest "GET" endpoint],
     let '(target, err) := Unmarshal store (scan payload) target in
     (target, fmt.Errorf_w "unmarshal error: " <$> err)).
Proof.
  intros HJ HG Hstatus HB. unfold guest.handlejson, http.StatusOK.
  rewrite HJ, HG, HB, Hstatus. cbn.
  now destruct (Unmarshal store (scan payload) target) as [t [err|]].
Qed.

(** X18: on a 200 response whose body is a JSON array of strings,
    [ListConfig] makes one GET and returns exactly these strings, in the
    order of the array, without an error. *)
Theorem ListConfig_returns_keys :
  forall (g : guest.GuestClient) (endpoint payload : string) (resp : http.Response)
         (keys : list string),
    JoinPath "http://" [guest.ConfigPath] = inr endpoint ->
    http.Get (guest.c g) endpoint = inr resp ->
    http.StatusCode resp = 200%Z ->
    http.Body resp = inr payload ->
    scan payload = Wellformed (JArray (JString <$> keys)) ->
    guest.ListConfig JoinPath scan g = ([http.mkRequest "GET" endpoint], (keys, None)).
Proof.
  intros g endpoint payload resp keys HJ HG Hstatus HB Hscan.
  unfold guest.ListConfig.
  rewrite (handlejson_ok _ g _ endpoint payload _ resp HJ HG Hstatus HB), Hscan.
  cbn [Unmarshal]. now rewrite storeStringSlice_strings.
Qed.

(** X19: on a 200 response whose body is a JSON object with exactly the
    members [api_version], [location], [instance_type] and [state],
    strings, in any order, [Info] returns these four values without an
    error. *)
Theorem Info_returns_fields :
  forall (g : guest.GuestClient) (endpoint payload : string) (resp : http.Response)
         (members : list (string * value)) (version location type state : string),
    JoinPath "http://" [guest.InstanceInfoPath] = inr endpoint ->
    http.Get (guest.c g) endpoint = inr resp ->
    http.StatusCode resp = 200%Z ->
    http.Body resp = inr payload ->
    scan payload = Wellformed (JObject members) ->
    [ ("api_version", JString version); ("location", JString location);
      ("instance_type", JString type); ("state", JString state) ] ≡ₚ members ->
    guest.Info JoinPath scan g =
      ([http.mkRequest "GET" endpoint],
       (guest.mkInstanceInfo version location type state, None)).
Proof.
  intros g endpoint payload resp members version location type state
    HJ HG Hstatus HB Hscan Hshape.
  unfold guest.Info.
  rewrite (handlejson_ok _ g _ endpoint payload _ resp HJ HG Hstatus HB), Hscan.
  cbn [Unmarshal]. rearrangements Hshape; reflexivity.
Qed.

(** X20: when the body of a 200 response does not scan as JSON, [Info],
    [ListConfig] and [Devices] return their empty value and an error
    [unmarshal error: ...] that wraps the scanner's error; when the body is
    the JSON [null], they return their empty value and no error. *)
Theorem handlejson_body_not_a_value :
  forall (g : guest.GuestClient) (path endpoint payload : string) (resp : http.Response),
    JoinPath "http://" [path] = inr endpoint ->
    http.Get (guest.c g) endpoint = inr resp ->
    http.StatusCode resp = 200%Z ->
    http.Body resp = inr payload ->
    (forall cause,
       scan payload = Malformed cause ->
       let failed := fmt.Errorf_w "unmarshal error: " cause in
       errors.Is failed cause = true /\
       (path = guest.InstanceInfoPath ->
          (guest.Info JoinPath scan g).2 = (guest.mkInstanceInfo "" "" "" "", Some failed)) /\
       (path = guest.ConfigPath ->
          (guest.ListConfig JoinPath scan g).2 = ([], Some failed)) /\
       (path = guest.ListDevicesPath ->
          (guest.Devices JoinPath scan g).2 = (∅, Some failed))) /\
    (scan payload = Wellformed JNull ->
       (path = guest.InstanceInfoPath ->
          (guest.Info JoinPath scan g).2 = (guest.mkInstanceInfo "" "" "" "", None)) /\
       (path = guest.ConfigPath -> (guest.ListConfig JoinPath scan g).2 = ([], None)) /\
       (path = guest.ListDevicesPath -> (guest.Devices JoinPath scan g).2 = (∅, None))).
Proof.
  intros g path endpoint payload resp HJ HG Hstatus HB.
  pose proof (fun T store target =>
    @handlejson_ok T store g path endpoint payload target resp HJ HG Hstatus HB) as Hok.
  split.
  - intros cause Hscan failed. split; [apply Is_Errorf_w|].
    repeat split; intros Hpath; rewrite Hpath in Hok.
    + unfold guest.Info. now rewrite Hok, Hscan.
    + unfold guest.ListConfig. now rewrite Hok, Hscan.
    + unfold guest.Devices. now rewrite Hok, Hscan.
  - intros Hscan. repeat split; intros Hpath; rewrite Hpath in Hok.
    + unfold guest.Info. now rewrite Hok, Hscan.
    + unfold guest.ListConfig. now rewrite Hok, Hscan.
    + unfold guest.Devices. now rewrite Hok, Hscan.
Qed.

(** Inserting the pairs of a list one after the other gives the map of the
    list in which a later pair replaces an earlier one of the same key. *)
Lemma foldl_insert_list_to_map {A : Type} (l : list (string * A)) (m : gmap string A) :
  foldl (fun m kv => <[kv.1 := kv.2]> m) m l = list_to_map (reverse l) ∪ m.
Proof.
  revert m. induction l as [|[k v] l IH]; intros m; cbn [foldl fst snd].
  - cbn. now rewrite (left_id_L ∅ (∪)).
  - rewrite IH, reverse_cons, list_to_map_app. cbn [list_to_map foldr fst snd].
    rewrite <- (assoc_L (∪)). f_equal.
    now rewrite insert_empty, <- insert_union_singleton_l.
Qed.

Lemma storeStringMap_strings (kvs : list (string * string)) (target : gmap string string) :
  guest.storeStringMap (JObject ((fun kv => (kv.1, JString kv.2)) <$> kvs)) target =
    (list_to_map (reverse kvs) ∪ target, None).
Proof.
  unfold guest.storeStringMap. rewrite <- foldl_insert_list_to_map.
  revert target. induction kvs as [|[k v] kvs IH]; intros target; [reflexivity|].
  cbn. apply IH.
Qed.

Lemma storeDeviceMap_devices (devices : list (string * list (string * string)))
    (target : gmap string (gmap string string)) :
  guest.storeDeviceMap
    (JObject
       ((fun d => (d.1, JObject ((fun kv => (kv.1, JString kv.2)) <$> d.2))) <$> devices))
    target =
    (list_to_map (reverse ((fun d => (d.1, list_to_map (reverse d.2))) <$> devices))
       ∪ target, None).
Proof.
  unfold guest.storeDeviceMap. rewrite <- foldl_insert_list_to_map.
  revert target. induction devices as [|[name kvs] devices IH]; intros target;
    [reflexivity|].
  cbn [fmap list_fmap foldl fst snd].
  rewrite storeStringMap_strings, (right_id_L ∅ (∪)). cbn. apply IH.
Qed.

(** X21: on a 200 response whose body is a JSON object of objects of
    strings, [Devices] returns, without an error, the map that takes each
    device name to the map of that device's keys and values; of a name,
    or of a key within a device, that occurs twice the last occurrence
    counts. *)
Theorem Devices_returns_devices :
  forall (g : guest.GuestClient) (endpoint payload : string) (resp : http.Response)
         (devices : list (string * list (string * string))),
    JoinPath "http://" [guest.ListDevicesPath] = inr endpoint ->
    http.Get (guest.c g) endpoint = inr resp ->
    http.StatusCode resp = 200%Z ->
    http.Body resp = inr payload ->
    scan payload =
      Wellformed
        (JObject
           ((fun d => (d.1, JObject ((fun kv => (kv.1, JString kv.2)) <$> d.2)))
              <$> devices)) ->
    guest.Devices JoinPath scan g =
      ([http.mkRequest "GET" endpoint],
       (list_to_map (reverse ((fun d => (d.1, list_to_map (reverse d.2))) <$> devices)),
        None)).
Proof.
  intros g endpoint payload resp devices HJ HG Hstatus HB Hscan.
  unfold guest.Devices.
  rewrite (handlejson_ok _ g _ endpoint payload _ resp HJ HG Hstatus HB), Hscan.
  cbn [Unmarshal]. rewrite storeDeviceMap_devices.
  now rewrite (right_id_L ∅ (∪)).
Qed.

(** X22: [MustConfig] never returns the empty string: when it returns, the
    value is not empty and is what [Config] returned without an error;
    when it panics, [Config] returned an error or the empty string. It
    makes the requests [Config] makes. *)
Theorem MustConfig_never_blank :
  forall (g : guest.GuestClient) (key : string),
    (guest.MustConfig JoinPath g key).1 = (guest.Config JoinPath g key).1 /\
    match (guest.MustConfig JoinPath g key).2 with
    | guest.Returns v => v <> "" /\ (guest.Config JoinPath g key).2 = (v, None)
    | guest.Panics (guest.panicError failed) =>
        exists err,
          (guest.Config JoinPath g key).2.2 = Some err /\
          errors.Unwrap failed = Some err
    | guest.Panics (guest.panicString _) => (guest.Config JoinPath g key).2 = ("", None)
    end.
Proof.
  intros g key. unfold guest.MustConfig.
  destruct (guest.Config JoinPath g key) as [requests [result [err|]]]; cbn.
  - eauto.
  - destruct (String.eqb_spec result "") as [->|Hne]; cbn; auto.
Qed.

(** X23: what [MustConfig] does with the host's answer: on status 404, and
    on status 200 with an empty body, it panics with the string
    [loaded key <key> is blank], naming the key as it was given; on status
    200 with a body that is not empty it returns the body; on any other
    status it panics with an error [error loading config key <key>: ...]
    that wraps the status error of [Config]. *)
Theorem MustConfig_status :
  forall (g : guest.GuestClient) (key endpoint : string) (resp : http.Response),
    JoinPath "http://" [guest.ConfigPath; guest.Config_formattedKey key] = inr endpoint ->
    http.Get (guest.c g) endpoint = inr resp ->
    let blank := guest.Panics (guest.panicString ("loaded key " +:+ key +:+ " is blank")) in
    (http.StatusCode resp = 404%Z -> (guest.MustConfig JoinPath g key).2 = blank) /\
    (http.StatusCode resp = 200%Z -> http.Body resp = inr "" ->
       (guest.MustConfig JoinPath g key).2 = blank) /\
    (forall body,
       http.StatusCode resp = 200%Z -> http.Body resp = inr body -> body <> "" ->
       (guest.MustConfig JoinPath g key).2 = guest.Returns body) /\
    (http.StatusCode resp <> 200%Z -> http.StatusCode resp <> 404%Z ->
       (guest.MustConfig JoinPath g key).2 =
         guest.Panics
           (guest.panicError
              (wrapError
                 ("error loading config key " +:+ key +:+ ": unexpected status code: "
                  +:+ fmt.itoa (http.StatusCode resp))
                 (fmt.Errorf_w_d guest.UnexpectedStatusCode (http.StatusCode resp))))).
Proof.
  intros g key endpoint resp HJ HG blank. subst blank.
  unfold guest.MustConfig, guest.Config, http.StatusNotFound, http.StatusOK.
  rewrite HJ, HG. cbn zeta.
  repeat split.
  - intros ->. reflexivity.
  - intros -> ->. reflexivity.
  - intros body -> -> Hne. cbn. apply String.eqb_neq in Hne. now rewrite Hne.
  - intros H200 H404. apply Z.eqb_neq in H200, H404. now rewrite H404, H200.
Qed.

(** X24: [HasConfig] tells what [Config] will do when the host answers
    both with the same status: if [HasConfig] returns true, [Config]
    returns the body it reads, without an error; if it returns false
    without an error, [Config] returns the empty string without an error;
    if it returns an error, [Config] returns the same error. *)
Theorem HasConfig_agrees_with_Config :
  forall (g : guest.GuestClient) (key endpoint : string) (got headed : http.Response),
    JoinPath "http://" [guest.ConfigPath; guest.Config_formattedKey key] = inr endpoint ->
    http.Get (guest.c g) endpoint = inr got ->
    http.Head (guest.c g) endpoint = inr headed ->
    http.StatusCode got = http.StatusCode headed ->
    ((guest.HasConfig JoinPath g key).2.1 = true ->
       forall body, http.Body got = inr body ->
         (guest.Config JoinPath g key).2 = (body, None)) /\
    ((guest.HasConfig JoinPath g key).2 = (false, None) ->
       (guest.Config JoinPath g key).2 = ("", None)) /\
    (forall err,
       (guest.HasConfig JoinPath g key).2.2 = Some err ->
       (guest.Config JoinPath g key).2 = ("", Some err)).
Proof.
  intros g key endpoint got headed HJ HG HH Hsame.
  unfold guest.HasConfig, guest.Config, http.StatusNotFound, http.StatusOK.
  rewrite (proj2 (formattedKey_prefixed key)), HJ, HG, HH, Hsame. cbn zeta.
  destruct (http.StatusCode headed =? 404)%Z; [cbn; repeat split; congruence|].
  destruct (http.StatusCode headed =? 200)%Z; cbn.
  - repeat split; try congruence. now intros _ body ->.
  - repeat split; congruence.
Qed.

End MoreOneShot.

Lemma lookup_user_prefix_same_call_witness :
  guest.Config sample.JoinPath (sample.client (http.mkResponse 200 (inr "bar"))) "foo" =
    guest.Config sample.JoinPath (sample.client (http.mkResponse 200 (inr "bar"))) "user.foo"
  /\
  guest.HasConfig sample.JoinPath (sample.client (http.mkResponse 200 (inr "bar"))) "foo" =
    guest.HasConfig sample.JoinPath (sample.client (http.mkResponse 200 (inr "bar")))
      "user.foo".
Proof.
  apply (lookup_user_prefix_same_call sample.JoinPath
           (sample.client (http.mkResponse 200 (inr "bar"))) "foo"); reflexivity.
Defined.

Lemma one_shot_socket_error_witness :
  (guest.ListConfig sample.JoinPath sample.scan
     (guest.mkGuestClient
        (http.mkClient (fun _ => inl (errorString "no such file"))
           (fun _ => inr (http.mkResponse 200 (inr "")))))).2 =
    ([], Some (wrapError "socket error: no such file" (errorString "no such file")))
  /\
  (guest.HasConfig sample.JoinPath
     (guest.mkGuestClient
        (http.mkClient (fun _ => inr (http.mkResponse 200 (inr "bar")))
           (fun _ => inl (errorString "no such file")))) "foo").2 =
    (false, Some (wrapError "socket error: no such file" (errorString "no such file"))).
Proof.
  destruct (one_shot_socket_error sample.JoinPath sample.scan
              (guest.mkGuestClient
                 (http.mkClient (fun _ => inl (errorString "no such file"))
                    (fun _ => inr (http.mkResponse 200 (inr "")))))
              [guest.ConfigPath] "http://1.0/1.0/config" (errorString "no such file")
              eq_refl) as (_ & HGet & _).
  destruct (HGet eq_refl) as (_ & HListConfig & _).
  destruct (one_shot_socket_error sample.JoinPath sample.scan
              (guest.mkGuestClient
                 (http.mkClient (fun _ => inr (http.mkResponse 200 (inr "bar")))
                    (fun _ => inl (errorString "no such file"))))
              [guest.ConfigPath; "user.foo"] "http://1.0/1.0/config/user.foo"
              (errorString "no such file") eq_refl) as (_ & _ & HHead).
  split; [exact (HListConfig eq_refl) | exact (HHead eq_refl "foo" eq_refl)].
Defined.

Lemma body_read_failure_witness :
  (guest.Info sample.JoinPath sample.scan
     (sample.client (http.mkResponse 404 (inl (errorString "unexpected EOF"))))).2.2 =
    Some (wrapError "reader error: unexpected EOF" (errorString "unexpected EOF"))
  /\
  (guest.Metadata sample.JoinPath
     (sample.client (http.mkResponse 404 (inl (errorString "unexpected EOF"))))).2.2 =
    Some (wrapError "unexpected status code: 404" guest.UnexpectedStatusCode).
Proof.
  destruct (body_read_failure sample.JoinPath sample.scan
              (sample.client (http.mkResponse 404 (inl (errorString "unexpected EOF"))))
              [guest.InstanceInfoPath] "http://1.0/1.0"
              (http.mkResponse 404 (inl (errorString "unexpected EOF")))
              (errorString "unexpected EOF") eq_refl eq_refl eq_refl) as (HInfo & _).
  destruct (body_read_failure sample.JoinPath sample.scan
              (sample.client (http.mkResponse 404 (inl (errorString "unexpected EOF"))))
              [guest.MetadataPath] "http://1.0/1.0/meta-data"
              (http.mkResponse 404 (inl (errorString "unexpected EOF")))
              (errorString "unexpected EOF") eq_refl eq_refl eq_refl)
    as (_ & _ & _ & HMetadata & _).
  split; [exact (HInfo eq_refl) | exact (HMetadata eq_refl)].
Defined.

Lemma ListConfig_returns_keys_witness :
  guest.ListConfig sample.JoinPath
    (fun _ => Wellformed (JArray [JString "user.a"; JString "cloud-init.user-data"]))
    (sample.client (http.mkResponse 200 (inr "[...]"))) =
    ([http.mkRequest "GET" "http://1.0/1.0/config"],
     (["user.a"; "cloud-init.user-data"], None)).
Proof.
  apply (ListConfig_returns_keys sample.JoinPath _ _ "http://1.0/1.0/config" "[...]"
           (http.mkResponse 200 (inr "[...]")) ["user.a"; "cloud-init.user-data"]);
    reflexivity.
Defined.

Lemma Info_returns_fields_witness :
  guest.Info sample.JoinPath
    (fun _ =>
       Wellformed
         (JObject
            [ ("state", JString "Started"); ("api_version", JString "1.0");
              ("instance_type", JString "container"); ("location", JString "none") ]))
    (sample.client (http.mkResponse 200 (inr "{...}"))) =
    ([http.mkRequest "GET" "http://1.0/1.0"],
     (guest.mkInstanceInfo "1.0" "none" "container" "Started", None)).
Proof.
  apply (Info_returns_fields sample.JoinPath _ _ "http://1.0/1.0" "{...}"
           (http.mkResponse 200 (inr "{...}"))
           [ ("state", JString "Started"); ("api_version", JString "1.0");
             ("instance_type", JString "container"); ("location", JString "none") ]);
    try reflexivity.
  apply permutations_Permutation. cbn. set_solver.
Defined.

Lemma handlejson_body_not_a_value_witness :
  (guest.ListConfig sample.JoinPath sample.scan
     (sample.client (http.mkResponse 200 (inr "<html>")))).2 =
    ([], Some (wrapError "unmarshal error: invalid character"
                 (SyntaxError "invalid character")))
  /\
  (guest.ListConfig sample.JoinPath sample.scan
     (sample.client (http.mkResponse 200 (inr "null")))).2 = ([], None).
Proof.
  destruct (proj1 (handlejson_body_not_a_value sample.JoinPath sample.scan
                     (sample.client (http.mkResponse 200 (inr "<html>"))) guest.ConfigPath
                     "http://1.0/1.0/config" "<html>" (http.mkResponse 200 (inr "<html>"))
                     eq_refl eq_refl eq_refl eq_refl)
              (SyntaxError "invalid character") eq_refl) as (_ & _ & Hfailed & _).
  destruct (proj2 (handlejson_body_not_a_value sample.JoinPath sample.scan
                     (sample.client (http.mkResponse 200 (inr "null"))) guest.ConfigPath
                     "http://1.0/1.0/config" "null" (http.mkResponse 200 (inr "null"))
                     eq_refl eq_refl eq_refl eq_refl) eq_refl) as (_ & Hnull & _).
  split; [exact (Hfailed eq_refl) | exact (Hnull eq_refl)].
Defined.

Lemma Devices_returns_devices_witness :
  (guest.Devices sample.JoinPath
     (fun _ =>
        Wellformed
          (JObject
             [ ("eth0", JObject [ ("type", JString "nic"); ("name", JString "eth0") ]);
               ("root", JObject [ ("type", JString "disk"); ("path", JString "/") ]) ]))
     (sample.client (http.mkResponse 200 (inr "{...}")))).2.1
    !! "root" = Some {[ "type" := "disk"; "path" := "/" ]}.
Proof.
  rewrite (Devices_returns_devices sample.JoinPath _
             (sample.client (http.mkResponse 200 (inr "{...}")))
             "http://1.0/1.0/devices" "{...}" (http.mkResponse 200 (inr "{...}"))
             [ ("eth0", [ ("type", "nic"); ("name", "eth0") ]);
               ("root", [ ("type", "disk"); ("path", "/") ]) ]
             eq_refl eq_refl eq_refl eq_refl eq_refl).
  vm_compute. reflexivity.
Defined.

Lemma MustConfig_status_witness :
  (guest.MustConfig sample.JoinPath (sample.client (http.mkResponse 404 (inr ""))) "foo").2 =
    guest.Panics (guest.panicString "loaded key foo is blank")
  /\
  (guest.MustConfig sample.JoinPath (sample.client (http.mkResponse 200 (inr "bar"))) "foo").2 =
    guest.Returns "bar"
  /\
  (guest.MustConfig sample.JoinPath (sample.client (http.mkResponse 500 (inr ""))) "foo").2 =
    guest.Panics
      (guest.panicError
         (wrapError "error loading config key foo: unexpected status code: 500"
            (wrapError "unexpected status code: 500" guest.UnexpectedStatusCode))).
Proof.
  destruct (MustConfig_status sample.JoinPath
              (sample.client (http.mkResponse 404 (inr ""))) "foo"
              "http://1.0/1.0/config/user.foo" (http.mkResponse 404 (inr ""))
              eq_refl eq_refl) as (Hmissing & _).
  destruct (MustConfig_status sample.JoinPath
              (sample.client (http.mkResponse 200 (inr "bar"))) "foo"
              "http://1.0/1.0/config/user.foo" (http.mkResponse 200 (inr "bar"))
              eq_refl eq_refl) as (_ & _ & Hvalue & _).
  destruct (MustConfig_status sample.JoinPath
              (sample.client (http.mkResponse 500 (inr ""))) "foo"
              "http://1.0/1.0/config/user.foo" (http.mkResponse 500 (inr ""))
              eq_refl eq_refl) as (_ & _ & _ & Hfailed).
  split; [|split].
  - exact (Hmissing eq_refl).
  - apply (Hvalue "bar"); [reflexivity | reflexivity | discriminate].
  - apply Hfailed; cbn; lia.
Defined.

Lemma HasConfig_agrees_with_Config_witness :
  (guest.Config sample.JoinPath (sample.client (http.mkResponse 200 (inr "bar"))) "foo").2 =
    ("bar", None)
  /\
  (guest.Config sample.JoinPath (sample.client (http.mkResponse 404 (inr ""))) "foo").2 =
    ("", None).
Proof.
  destruct (HasConfig_agrees_with_Config sample.JoinPath
              (sample.client (http.mkResponse 200 (inr "bar"))) "foo"
              "http://1.0/1.0/config/user.foo" (http.mkResponse 200 (inr "bar"))
              (http.mkResponse 200 (inr "bar")) eq_refl eq_refl eq_refl eq_refl)
    as (Hpresent & _).
  destruct (HasConfig_agrees_with_Config sample.JoinPath
              (sample.client (http.mkResponse 404 (inr ""))) "foo"
              "http://1.0/1.0/config/user.foo" (http.mkResponse 404 (inr ""))
              (http.mkResponse 404 (inr "")) eq_refl eq_refl eq_refl eq_refl)
    as (_ & Habsent & _).
  split; [exact (Hpresent eq_refl "bar" eq_refl) | exact (Habsent eq_refl)].
Defined.

(** ** The events the callback sees *)

Section Delivered.

Variable JoinPath : string -> list string -> error + string.
Variable Parse : string -> error + url.URL.
Variable URL_String : url.URL -> string.
Variable Dial : context.Context -> string -> http.Client -> error + websocket.Conn.

(** X25: every event the callback is started on carries at most the
    payload of its type: its config payload is zero unless its type is
    [config], and its device payload is zero unless its type is
    [device]. *)
Theorem callbacks_carry_one_payload :
  forall (g : guest.GuestClient) (ctx : context.Context) (events : list incus.EventType)
         (endpoint : string) (conn : websocket.Conn) (ev : incus.Event),
    let run := guest.ListenForEvents JoinPath Parse URL_String Dial g ctx events in
    guest.dialed run = Some endpoint ->
    Dial ctx endpoint (guest.c g) = inr conn ->
    ev ∈ guest.callbacks run ->
    (incus.Type_ ev <> "config" -> incus.Config ev = incus.zeroConfigUpdateMetadata) /\
    (incus.Type_ ev <> "device" -> incus.Device ev = incus.zeroDeviceUpdateMetadata).
Proof.
  intros g ctx events endpoint conn ev run Hdial Hconn Hin.
  destruct (ListenForEvents_listened JoinPath Parse URL_String Dial g ctx events
              endpoint conn Hdial Hconn) as [handled unread _ He _ _].
  fold run in He.
  apply list_elem_of_lookup in Hin as [i Hi].
  destruct (Forall2_lookup_r _ _ _ _ _ He Hi) as (message & _ & Hdec).
  unfold guest.decodesTo, guest.Decode in Hdec.
  destruct message as [err|v]; [discriminate|].
  pose proof (UnmarshalJSON_other_payload incus.zeroEvent (Wellformed v)) as Hiso.
  rewrite Hdec in Hiso. exact Hiso.
Qed.

End Delivered.

Lemma callbacks_carry_one_payload_witness :
  (incus.Type_
     (incus.mkEvent "t1" "device" incus.zeroConfigUpdateMetadata
        (incus.mkDeviceUpdateMetadata "eth0" "added" (incus.mkDeviceConfig "nic" "/dev/net")))
     <> "config" ->
   incus.Config
     (incus.mkEvent "t1" "device" incus.zeroConfigUpdateMetadata
        (incus.mkDeviceUpdateMetadata "eth0" "added" (incus.mkDeviceConfig "nic" "/dev/net")))
     = incus.zeroConfigUpdateMetadata) /\
  (incus.Type_
     (incus.mkEvent "t1" "device" incus.zeroConfigUpdateMetadata
        (incus.mkDeviceUpdateMetadata "eth0" "added" (incus.mkDeviceConfig "nic" "/dev/net")))
     <> "device" ->
   incus.Device
     (incus.mkEvent "t1" "device" incus.zeroConfigUpdateMetadata
        (incus.mkDeviceUpdateMetadata "eth0" "added" (incus.mkDeviceConfig "nic" "/dev/net")))
     = incus.zeroDeviceUpdateMetadata).
Proof.
  apply (callbacks_carry_one_payload sample.JoinPath sample.Parse sample.URL_String
           (sample.Dial sample.deviceConn)
           (sample.client (http.mkResponse 200 (inr ""))) (sample.cancelledAfter 1) []
           "ws://1.0/1.0/events" sample.deviceConn _ eq_refl eq_refl).
  apply list_elem_of_lookup. exists 0%nat. reflexivity.
Defined.
